(** * PC Manager server: the register / poll / command / report protocol

    A shallow embedding of [main.py].  The two SQL tables are lists of rows
    kept in insertion (rowid) order, every request handler is a computation
    in a small state-and-exception monad over the database, and the release
    handlers run over an abstract file system. *)

From Stdlib Require Import List String Ascii ZArith Bool Lia.
From Stdlib.Strings Require Import Byte.
From Stdlib Require DecimalString.
Import ListNotations.

Local Open Scope Z_scope.
Local Open Scope string_scope.
Local Open Scope list_scope.

(** ** Values *)

(** JSON documents, as [json.loads] produces them and as the JSON column
    and the response bodies carry them.  A Python [dict] is the list of its
    items in insertion order. *)
#[local] Set Warnings "-register-all".
Inductive json : Type :=
| JNull
| JBool (b : bool)
| JInt (n : Z)
| JFloat (repr : string)
| JStr (s : string)
| JList (items : list json)
| JDict (items : list (string * json)).

Definition dict : Type := list (string * json).

Definition datetime : Type := Z.

(** [os.environ] and [socket.gethostname()]. *)
Record os_env : Type := {
  environ : string -> option string;
  gethostname : string
}.

Definition environ_get (e : os_env) (key default : string) : string :=
  match environ e key with
  | Some v => v
  | None => default
  end.

Definition DATABASE_URL (e : os_env) : string :=
  environ_get e "DATABASE_URL" "sqlite:///./db.sqlite3".
Definition ADMIN_KEY (e : os_env) : string :=
  environ_get e "ADMIN_KEY" "change_me".
Definition DOWNLOAD_FOLDER (e : os_env) : string :=
  environ_get e "DOWNLOAD_FOLDER" "./downloads".

(** The two clocks a request reads: [datetime.utcnow()] in the handler and
    [CURRENT_TIMESTAMP] in the database server. *)
Record clock : Type := {
  utcnow : datetime;
  CURRENT_TIMESTAMP : datetime
}.

(** ** Tables *)

Module computers.
Record row : Type := {
  id : Z;
  pc_id : string;
  room : string;
  mac : option string;
  ip : option string;
  token : string;
  status : string;
  last_seen : option datetime;
  blocked : bool;
  created_at : datetime
}.
End computers.

Module commands.
Record row : Type := {
  id : Z;
  pc_id : string;
  cmd_type : string;
  payload : dict;
  status : string;
  created_at : datetime
}.
End commands.

Record RegisterIn : Type := {
  pc_id : string;
  room : string;
  mac : option string;
  ip : option string;
  token : string
}.

(** ** The platform: files and the [json] module

    [pathlib] and the disk are an interface with the three facts the
    handlers rely on; writing is taken to succeed.  [read_text] is [None]
    when the bytes of the file do not decode. *)
Class FileSystem (fs : Type) : Type := {
  joinpath : string -> string -> string;
  exists_ : fs -> string -> bool;
  read_text : fs -> string -> option string;
  write_bytes : fs -> string -> list byte -> fs;
  write_text : fs -> string -> string -> fs;
  exists_write_bytes : forall f p b, exists_ (write_bytes f p b) p = true;
  exists_write_text : forall f p t, exists_ (write_text f p t) p = true;
  read_write_text : forall f p t, read_text (write_text f p t) p = Some t
}.

(** The version descriptor [{"version": v, "url": u}]. *)
Definition descriptor (v u : string) : dict :=
  [("version", JStr v); ("url", JStr u)].

(** [json.dumps] and [json.loads] ([None]: [JSONDecodeError]); a
    descriptor survives the round trip. *)
Class JsonModule : Type := {
  dumps : json -> string;
  loads : string -> option json;
  loads_dumps_descriptor :
    forall v u, loads (dumps (JDict (descriptor v u))) = Some (JDict (descriptor v u))
}.

(** What [print] wrote: the line of [report_result], kept unrendered. *)
Inductive printed : Type :=
| Result_for_command (command_id : Z) (result : dict).

(** The state the handlers share: both tables, the process's stdout and
    the disk. *)
Record world (fs : Type) : Type := {
  computers_rows : list computers.row;
  commands_rows : list commands.row;
  stdout : list printed;
  files : fs
}.
Arguments computers_rows {fs} w.
Arguments commands_rows {fs} w.
Arguments stdout {fs} w.
Arguments files {fs} w.
Arguments Build_world {fs}.

(** A fresh database next to whatever the disk holds. *)
Definition empty_world {fs} (disk : fs) : world fs :=
  {| computers_rows := []; commands_rows := []; stdout := []; files := disk |}.

(** The part of the state that is stored in the database. *)
Definition persistent {fs} (w : world fs)
  : list computers.row * list commands.row :=
  (computers_rows w, commands_rows w).

(** ** The handler monad *)

Inductive exn : Type :=
| HTTPException (status_code : Z) (detail : string)
| TypeError
| ValueError
| IntegrityError.

Inductive outcome (A : Type) : Type :=
| Return (a : A)
| Raise (e : exn).
Arguments Return {A} a.
Arguments Raise {A} e.

Definition handler (fs A : Type) : Type := world fs -> outcome A * world fs.

Definition ret {fs A} (a : A) : handler fs A := fun w => (Return a, w).

Definition raise {fs A} (e : exn) : handler fs A := fun w => (Raise e, w).

Definition bind {fs A B} (m : handler fs A) (k : A -> handler fs B)
  : handler fs B :=
  fun w =>
    match m w with
    | (Return a, w') => k a w'
    | (Raise e, w') => (Raise e, w')
    end.

Notation "x <- m ;; k" := (bind m (fun x => k))
  (at level 61, m at next level, right associativity).
Notation "m ;; k" := (bind m (fun _ => k))
  (at level 61, right associativity).

(** ** Database statements *)

(** [x_agent_token != row["token"]], [x_admin_key != ADMIN_KEY]: an absent
    header is [None], which differs from every string. *)
Definition header_ne (header : option string) (expected : string) : bool :=
  match header with
  | Some v => negb (v =? expected)
  | None => true
  end.

(** The integer primary key of a new row: one more than the largest. *)
Definition next_rowid (ids : list Z) : Z :=
  1 + fold_right Z.max 0 ids.

Definition update_where {R} (cond : R -> bool) (values : R -> R)
  (rows : list R) : list R :=
  map (fun r => if cond r then values r else r) rows.

Definition fetch_one_computers {fs} (cond : computers.row -> bool)
  : handler fs (option computers.row) :=
  fun w => (Return (find cond (computers_rows w)), w).

Definition fetch_one_commands {fs} (cond : commands.row -> bool)
  : handler fs (option commands.row) :=
  fun w => (Return (find cond (commands_rows w)), w).

Definition fetch_all_commands {fs} (cond : commands.row -> bool)
  : handler fs (list commands.row) :=
  fun w => (Return (filter cond (commands_rows w)), w).

Definition execute_update_computers {fs} (cond : computers.row -> bool)
  (values : computers.row -> computers.row) : handler fs unit :=
  fun w =>
    (Return tt,
     {| computers_rows := update_where cond values (computers_rows w);
        commands_rows := commands_rows w;
        stdout := stdout w;
        files := files w |}).

Definition execute_update_commands {fs} (cond : commands.row -> bool)
  (values : commands.row -> commands.row) : handler fs unit :=
  fun w =>
    (Return tt,
     {| computers_rows := computers_rows w;
        commands_rows := update_where cond values (commands_rows w);
        stdout := stdout w;
        files := files w |}).

(** The row [computers.insert().values(...)] adds: the defaults of
    [blocked] and [created_at] are filled in. *)
Definition new_computer (clk : clock) (rows : list computers.row)
  (pc_id room : string) (mac ip : option string) (token status : string)
  (last_seen : datetime) : computers.row :=
  {| computers.id := next_rowid (map computers.id rows);
     computers.pc_id := pc_id;
     computers.room := room;
     computers.mac := mac;
     computers.ip := ip;
     computers.token := token;
     computers.status := status;
     computers.last_seen := Some last_seen;
     computers.blocked := false;
     computers.created_at := CURRENT_TIMESTAMP clk |}.

(** The column [pc_id] is unique: a second row of the same [pc_id] is
    refused. *)
Definition execute_insert_computers {fs} (clk : clock)
  (pc_id room : string) (mac ip : option string) (token status : string)
  (last_seen : datetime) : handler fs unit :=
  fun w =>
    if existsb (fun c => computers.pc_id c =? pc_id) (computers_rows w)
    then (Raise IntegrityError, w)
    else
      (Return tt,
       {| computers_rows :=
            computers_rows w ++
            [new_computer clk (computers_rows w) pc_id room mac ip token
               status last_seen];
          commands_rows := commands_rows w;
          stdout := stdout w;
          files := files w |}).

Definition new_command (clk : clock) (rows : list commands.row)
  (pc_id cmd_type : string) (payload : dict) (status : string)
  : commands.row :=
  {| commands.id := next_rowid (map commands.id rows);
     commands.pc_id := pc_id;
     commands.cmd_type := cmd_type;
     commands.payload := payload;
     commands.status := status;
     commands.created_at := CURRENT_TIMESTAMP clk |}.

Definition execute_insert_commands {fs} (clk : clock)
  (pc_id cmd_type : string) (payload : dict) (status : string)
  : handler fs unit :=
  fun w =>
    (Return tt,
     {| computers_rows := computers_rows w;
        commands_rows :=
          commands_rows w ++
          [new_command clk (commands_rows w) pc_id cmd_type payload status];
        stdout := stdout w;
        files := files w |}).

Definition print {fs} (line : printed) : handler fs unit :=
  fun w =>
    (Return tt,
     {| computers_rows := computers_rows w;
        commands_rows := commands_rows w;
        stdout := stdout w ++ [line];
        files := files w |}).

(** The [values(...)] clauses of the three updates. *)
Definition register_values (data : RegisterIn) (now : datetime)
  (c : computers.row) : computers.row :=
  {| computers.id := computers.id c;
     computers.pc_id := computers.pc_id c;
     computers.room := room data;
     computers.mac := mac data;
     computers.ip := ip data;
     computers.token := token data;
     computers.status := "online";
     computers.last_seen := Some now;
     computers.blocked := computers.blocked c;
     computers.created_at := computers.created_at c |}.

Definition seen_values (now : datetime) (c : computers.row) : computers.row :=
  {| computers.id := computers.id c;
     computers.pc_id := computers.pc_id c;
     computers.room := computers.room c;
     computers.mac := computers.mac c;
     computers.ip := computers.ip c;
     computers.token := computers.token c;
     computers.status := "online";
     computers.last_seen := Some now;
     computers.blocked := computers.blocked c;
     computers.created_at := computers.created_at c |}.

Definition status_values (status : string) (c : commands.row) : commands.row :=
  {| commands.id := commands.id c;
     commands.pc_id := commands.pc_id c;
     commands.cmd_type := commands.cmd_type c;
     commands.payload := commands.payload c;
     commands.status := status;
     commands.created_at := commands.created_at c |}.

(** ** Files *)

Definition path_exists {fs} `{FileSystem fs} (p : string) : handler fs bool :=
  fun w => (Return (exists_ (files w) p), w).

Definition path_read_text {fs} `{FileSystem fs} (p : string)
  : handler fs string :=
  fun w =>
    match read_text (files w) p with
    | Some text => (Return text, w)
    | None => (Raise ValueError, w)
    end.

Definition path_write_bytes {fs} `{FileSystem fs} (p : string)
  (contents : list byte) : handler fs unit :=
  fun w =>
    (Return tt,
     {| computers_rows := computers_rows w;
        commands_rows := commands_rows w;
        stdout := stdout w;
        files := write_bytes (files w) p contents |}).

Definition path_write_text {fs} `{FileSystem fs} (p : string)
  (text : string) : handler fs unit :=
  fun w =>
    (Return tt,
     {| computers_rows := computers_rows w;
        commands_rows := commands_rows w;
        stdout := stdout w;
        files := write_text (files w) p text |}).

(** [base.rstrip("/")] *)
Fixpoint rstrip_slash (s : string) : string :=
  match s with
  | EmptyString => EmptyString
  | String c s' =>
      match rstrip_slash s' with
      | EmptyString => if (c =? "/")%char then EmptyString else String c EmptyString
      | r => String c r
      end
  end.

Definition get_base_url (e : os_env) : string :=
  match environ e "BASE_URL" with
  | Some (String c base) => rstrip_slash (String c base)
  | _ => "http://" ++ gethostname e
  end.

(** ** Handlers *)

Section Handlers.
Context {fs : Type} {FS : FileSystem fs} {JM : JsonModule}.

(** [POST /register] *)
Definition register (clk : clock) (data : RegisterIn) : handler fs json :=
  existing <- fetch_one_computers (fun c => computers.pc_id c =? pc_id data) ;;
  let now := utcnow clk in
  match existing with
  | Some _ =>
      execute_update_computers
        (fun c => computers.pc_id c =? pc_id data)
        (register_values data now) ;;
      ret (JDict [("status", JStr "updated")])
  | None =>
      execute_insert_computers clk (pc_id data) (room data) (mac data)
        (ip data) (token data) "online" now ;;
      ret (JDict [("status", JStr "registered")])
  end.

(** One entry of [cmd_list]. *)
Definition cmd_entry (r : commands.row) : json :=
  JDict [("id", JInt (commands.id r));
         ("cmd_type", JStr (commands.cmd_type r));
         ("payload", JDict (commands.payload r))].

(** The [for r in rows] loop of [poll]. *)
Fixpoint poll_loop (rows : list commands.row) (cmd_list : list json)
  : handler fs (list json) :=
  match rows with
  | [] => ret cmd_list
  | r :: rows' =>
      let cmd_list := cmd_list ++ [cmd_entry r] in
      execute_update_commands
        (fun c => commands.id c =? commands.id r)%Z
        (status_values "sent") ;;
      poll_loop rows' cmd_list
  end.

(** [GET /poll/{pc_id}] *)
Definition poll (clk : clock) (pc_id : string) (x_agent_token : option string)
  : handler fs json :=
  row <- fetch_one_computers (fun c => computers.pc_id c =? pc_id) ;;
  match row with
  | None => raise (HTTPException 404 "pc not found")
  | Some row =>
      if header_ne x_agent_token (computers.token row)
      then raise (HTTPException 403 "bad token")
      else
        execute_update_computers
          (fun c => computers.pc_id c =? pc_id)
          (seen_values (utcnow clk)) ;;
        rows <- fetch_all_commands
                  (fun c => (commands.pc_id c =? pc_id)
                            && (commands.status c =? "pending")) ;;
        cmd_list <- poll_loop rows [] ;;
        ret (JDict [("commands", JList cmd_list)])
  end.

(** [payload or {}] *)
Definition payload_or_empty (payload : option dict) : dict :=
  match payload with
  | Some (item :: items) => item :: items
  | Some [] => []
  | None => []
  end.

(** [POST /command] *)
Definition create_command (e : os_env) (clk : clock)
  (pc_id cmd_type : string) (payload : option dict)
  (x_admin_key : option string) : handler fs json :=
  if header_ne x_admin_key (ADMIN_KEY e)
  then raise (HTTPException 403 "bad admin key")
  else
    pc <- fetch_one_computers (fun c => computers.pc_id c =? pc_id) ;;
    match pc with
    | None => raise (HTTPException 404 "pc not found")
    | Some _ =>
        execute_insert_commands clk pc_id cmd_type
          (payload_or_empty payload) "pending" ;;
        ret (JDict [("status", JStr "queued")])
    end.

(** [POST /report_result/{command_id}]; [pc["token"]] on a missing row is
    a [TypeError]. *)
Definition report_result (command_id : Z) (result : dict)
  (x_agent_token : option string) : handler fs json :=
  row <- fetch_one_commands (fun c => commands.id c =? command_id)%Z ;;
  match row with
  | None => raise (HTTPException 404 "command not found")
  | Some row =>
      pc <- fetch_one_computers
              (fun c => computers.pc_id c =? commands.pc_id row) ;;
      match pc with
      | None => raise TypeError
      | Some pc =>
          if header_ne x_agent_token (computers.token pc)
          then raise (HTTPException 403 "bad token")
          else
            execute_update_commands
              (fun c => commands.id c =? command_id)%Z
              (status_values "done") ;;
            print (Result_for_command command_id result) ;;
            ret (JDict [("ok", JBool true)])
      end
  end.

(** [GET /version] *)
Definition version (e : os_env) : handler fs json :=
  let ver_file := joinpath (DOWNLOAD_FOLDER e) "version.json" in
  present <- path_exists ver_file ;;
  if present
  then
    text <- path_read_text ver_file ;;
    match loads text with
    | Some doc => ret doc
    | None => raise ValueError
    end
  else ret (JDict (descriptor "0.0.0" "")).

(** [POST /upload_binary] *)
Definition upload_binary (e : os_env) (filename : string)
  (contents : list byte) (x_admin_key : option string) : handler fs json :=
  if header_ne x_admin_key (ADMIN_KEY e)
  then raise (HTTPException 403 "bad admin key")
  else
    let dest := joinpath (DOWNLOAD_FOLDER e) filename in
    path_write_bytes dest contents ;;
    ret (JDict [("ok", JBool true); ("path", JStr ("/downloads/" ++ filename))]).

(** [POST /set_version] *)
Definition set_version (e : os_env) (version filename : string)
  (x_admin_key : option string) : handler fs json :=
  if header_ne x_admin_key (ADMIN_KEY e)
  then raise (HTTPException 403 "bad admin key")
  else
    let fpath := joinpath (DOWNLOAD_FOLDER e) filename in
    present <- path_exists fpath ;;
    if negb present
    then raise (HTTPException 404 "file not found")
    else
      let version_data :=
        descriptor version (get_base_url e ++ "/downloads/" ++ filename) in
      path_write_text (joinpath (DOWNLOAD_FOLDER e) "version.json")
        (dumps (JDict version_data)) ;;
      ret (JDict [("ok", JBool true); ("version", JDict version_data)]).

(** [GET /health] *)
Definition health : handler fs json :=
  ret (JDict [("ok", JBool true)]).

(** ** The server as a transition system *)

Inductive request : Type :=
| Register (data : RegisterIn)
| Poll (pc_id : string) (x_agent_token : option string)
| CreateCommand (pc_id cmd_type : string) (payload : option dict)
    (x_admin_key : option string)
| ReportResult (command_id : Z) (result : dict)
    (x_agent_token : option string)
| Version
| UploadBinary (filename : string) (contents : list byte)
    (x_admin_key : option string)
| SetVersion (version filename : string) (x_admin_key : option string)
| Health.

Definition handle (e : os_env) (clk : clock) (req : request)
  : handler fs json :=
  match req with
  | Register data => register clk data
  | Poll pc_id tok => poll clk pc_id tok
  | CreateCommand pc_id cmd_type payload key =>
      create_command e clk pc_id cmd_type payload key
  | ReportResult command_id result tok => report_result command_id result tok
  | Version => version e
  | UploadBinary filename contents key => upload_binary e filename contents key
  | SetVersion v filename key => set_version e v filename key
  | Health => health
  end.

Definition step (e : os_env) (clk : clock) (req : request) (w : world fs)
  : world fs :=
  snd (handle e clk req w).

(** The states the server can be in: it starts on an empty database and
    serves requests one after the other. *)
Inductive reachable (e : os_env) : world fs -> Prop :=
| reachable_start : forall disk, reachable e (empty_world disk)
| reachable_step : forall w clk req,
    reachable e w -> reachable e (step e clk req w).

(** ** Properties of a store *)

Definition valid_status (s : string) : Prop :=
  s = "pending" \/ s = "sent" \/ s = "done".

Definition has_computer (w : world fs) (pc_id : string) : Prop :=
  In pc_id (map computers.pc_id (computers_rows w)).

Record store_ok (w : world fs) : Prop := {
  ok_pc_unique : NoDup (map computers.pc_id (computers_rows w));
  ok_id_unique : NoDup (map commands.id (commands_rows w));
  ok_owner : Forall (fun c => has_computer w (commands.pc_id c)) (commands_rows w);
  ok_status : Forall (fun c => valid_status (commands.status c)) (commands_rows w)
}.

(** Two rows for the same command: everything but the status agrees. *)
Definition same_command (c c' : commands.row) : Prop :=
  commands.id c' = commands.id c /\
  commands.pc_id c' = commands.pc_id c /\
  commands.cmd_type c' = commands.cmd_type c /\
  commands.payload c' = commands.payload c /\
  commands.created_at c' = commands.created_at c.

(** How a request moves the commands table: the rows there stay in place,
    each keeping its identity and moving its status as [allowed] permits,
    and new rows are added at the end, pending. *)
Definition commands_move (allowed : string -> string -> Prop)
  (before after : list commands.row) : Prop :=
  exists kept added,
    after = kept ++ added /\
    Forall2 (fun c c' => same_command c c' /\
                         allowed (commands.status c) (commands.status c'))
      before kept /\
    Forall (fun c => commands.status c = "pending") added.

Definition is_poll (req : request) : Prop :=
  match req with Poll _ _ => True | _ => False end.

Definition is_report_result (req : request) : Prop :=
  match req with ReportResult _ _ _ => True | _ => False end.

(** The chain the specification draws: pending to sent by a poll, sent to
    done by a report. *)
Definition chain_move (req : request) (old new : string) : Prop :=
  new = old \/
  (is_poll req /\ old = "pending" /\ new = "sent") \/
  (is_report_result req /\ old = "sent" /\ new = "done").

(** What the handlers do: a report marks the command done whatever its
    status was. *)
Definition status_move (req : request) (old new : string) : Prop :=
  new = old \/
  (is_poll req /\ old = "pending" /\ new = "sent") \/
  (is_report_result req /\ new = "done").

(** The number of rows of a [pc_id]. *)
Definition count_pc (pc_id : string) (rows : list computers.row) : nat :=
  List.length (filter (fun c => computers.pc_id c =? pc_id) rows).

(** The [where] clause of the query of [poll], and the pending commands
    of an agent it selects, in table order. *)
Definition is_pending_of (pc_id : string) (c : commands.row) : bool :=
  (commands.pc_id c =? pc_id) && (commands.status c =? "pending").

Definition pending_of (pc_id : string) (rows : list commands.row)
  : list commands.row :=
  filter (is_pending_of pc_id) rows.

(** The commands a poll loop over [rows] has marked. *)
Definition delivered (rows : list commands.row) (c : commands.row) : bool :=
  existsb (fun r => (commands.id c =? commands.id r)%Z) rows.

(** Enqueueing a sequence of commands for one agent with the admin key,
    each at its own time. *)
Fixpoint enqueue_all (e : os_env) (pc_id : string)
  (cmds : list (clock * (string * option dict))) (w : world fs) : world fs :=
  match cmds with
  | [] => w
  | (clk, (cmd_type, payload)) :: cmds' =>
      enqueue_all e pc_id cmds'
        (snd (create_command e clk pc_id cmd_type payload
                (Some (ADMIN_KEY e)) w))
  end.

(** The record [fetch_one] finds for a [pc_id], and for a command id. *)
Definition agent_of (w : world fs) (pc_id : string) : option computers.row :=
  find (fun c => computers.pc_id c =? pc_id) (computers_rows w).

Definition command_of (w : world fs) (command_id : Z) : option commands.row :=
  find (fun c => (commands.id c =? command_id)%Z) (commands_rows w).

(** The state machine as the specification has it: in every reachable
    state every request moves the statuses along the chain only. *)
Definition follows_chain (e : os_env) : Prop :=
  forall (w : world fs) (clk : clock) (req : request),
    reachable e w ->
    commands_move (chain_move req)
      (commands_rows w) (commands_rows (step e clk req w)).

(** The entry a poll returns for a command of the given id. *)
Definition entry (i : Z) (cmd_type : string) (payload : dict) : json :=
  JDict [("id", JInt i); ("cmd_type", JStr cmd_type);
         ("payload", JDict payload)].

End Handlers.

(** ** A platform to run on

    An in-memory disk (a path bound to the bytes last written to it) and a
    serialiser that writes JSON text and reads descriptors back. *)

Section Platform.
Local Open Scope string_scope.

Definition memdisk : Type := list (string * list byte).

Fixpoint memdisk_get (d : memdisk) (p : string) : option (list byte) :=
  match d with
  | [] => None
  | (q, b) :: d' => if q =? p then Some b else memdisk_get d' p
  end.

Definition memdisk_exists (d : memdisk) (p : string) : bool :=
  match memdisk_get d p with
  | Some _ => true
  | None => false
  end.

Definition memdisk_read_text (d : memdisk) (p : string) : option string :=
  option_map string_of_list_byte (memdisk_get d p).

#[global] Instance memdisk_fs : FileSystem memdisk.
Proof.
  refine {| joinpath := fun a b => (a ++ "/" ++ b)%string;
            exists_ := memdisk_exists;
            read_text := memdisk_read_text;
            write_bytes := fun d p b => (p, b) :: d;
            write_text := fun d p t => (p, list_byte_of_string t) :: d |}.
  - intros f p b. unfold memdisk_exists. simpl. now rewrite String.eqb_refl.
  - intros f p t. unfold memdisk_exists. simpl. now rewrite String.eqb_refl.
  - intros f p t. unfold memdisk_read_text. simpl. rewrite String.eqb_refl.
    simpl. now rewrite string_of_list_byte_of_string.
Defined.

Definition dquote : ascii := "034"%char.
Definition backslash : ascii := "092"%char.

(** The body of a JSON string: quotes and backslashes are escaped. *)
Fixpoint escape (s : string) : string :=
  match s with
  | EmptyString => EmptyString
  | String c s' =>
      if (c =? dquote)%char || (c =? backslash)%char
      then String backslash (String c (escape s'))
      else String c (escape s')
  end.

Definition quote (s : string) : string :=
  String dquote (escape s ++ String dquote EmptyString).

Definition digits_of_Z (n : Z) : string :=
  DecimalString.NilZero.string_of_int (Z.to_int n).

Fixpoint text_of_json (j : json) : string :=
  match j with
  | JNull => "null"
  | JBool true => "true"
  | JBool false => "false"
  | JInt n => digits_of_Z n
  | JFloat repr => repr
  | JStr s => quote s
  | JList items =>
      "[" ++
      (fix elements (l : list json) : string :=
         match l with
         | [] => ""
         | x :: l' =>
             match l' with
             | [] => text_of_json x
             | _ :: _ => text_of_json x ++ ", " ++ elements l'
             end
         end) items ++ "]"
  | JDict items =>
      "{" ++
      (fix members (l : list (string * json)) : string :=
         match l with
         | [] => ""
         | (k, x) :: l' =>
             match l' with
             | [] => quote k ++ ": " ++ text_of_json x
             | _ :: _ => quote k ++ ": " ++ text_of_json x ++ ", " ++ members l'
             end
         end) items ++ "}"
  end.

Fixpoint strip_prefix (prefix s : string) : option string :=
  match prefix, s with
  | EmptyString, _ => Some s
  | String a prefix', String b s' =>
      if (a =? b)%char then strip_prefix prefix' s' else None
  | String _ _, EmptyString => None
  end.

(** Reads the body of a JSON string up to its closing quote. *)
Fixpoint scan_string (s : string) : option (string * string) :=
  match s with
  | EmptyString => None
  | String c s' =>
      if (c =? dquote)%char then Some (EmptyString, s')
      else if (c =? backslash)%char then
        match s' with
        | EmptyString => None
        | String d s'' =>
            match scan_string s'' with
            | Some (body, rest) => Some (String d body, rest)
            | None => None
            end
        end
      else
        match scan_string s' with
        | Some (body, rest) => Some (String c body, rest)
        | None => None
        end
  end.

(** The text before the body of the first and of the second value. *)
Definition version_opening : string :=
  "{" ++ quote "version" ++ ": " ++ String dquote "".
Definition url_opening : string :=
  ", " ++ quote "url" ++ ": " ++ String dquote "".

Definition descriptor_of_text (text : string) : option json :=
  match strip_prefix version_opening text with
  | None => None
  | Some rest =>
      match scan_string rest with
      | None => None
      | Some (v, rest) =>
          match strip_prefix url_opening rest with
          | None => None
          | Some rest =>
              match scan_string rest with
              | None => None
              | Some (u, rest) =>
                  if rest =? "}" then Some (JDict (descriptor v u)) else None
              end
          end
      end
  end.

#[global] Instance text_json : JsonModule.
Proof.
  refine {| dumps := text_of_json; loads := descriptor_of_text |}.
  assert (scan : forall s rest,
             scan_string (escape s ++ String dquote rest) = Some (s, rest)).
  { induction s as [|c s IH]; intro rest; [reflexivity|].
    simpl. destruct (c =? dquote)%char eqn:Eq; simpl.
    - apply Ascii.eqb_eq in Eq. subst c. simpl. now rewrite IH.
    - destruct (c =? backslash)%char eqn:Eb; simpl.
      + apply Ascii.eqb_eq in Eb. subst c. simpl. now rewrite IH.
      + rewrite Eq, Eb. now rewrite IH. }
  assert (assoc : forall a b c : string, (a ++ b) ++ c = a ++ (b ++ c)).
  { induction a as [|x a IH]; intros b c; simpl; [reflexivity|now rewrite IH]. }
  assert (strip : forall p s, strip_prefix p (p ++ s) = Some s).
  { induction p as [|x p IH]; intro s; simpl; [reflexivity|].
    now rewrite Ascii.eqb_refl. }
  intros v u.
  assert (text : text_of_json (JDict (descriptor v u)) =
                 version_opening ++
                 (escape v ++ String dquote
                    (url_opening ++ (escape u ++ String dquote "}")))).
  { unfold descriptor, version_opening, url_opening.
    cbn [text_of_json]. unfold quote. rewrite !assoc. simpl.
    rewrite !assoc. reflexivity. }
  unfold descriptor_of_text. rewrite text, strip, scan, strip, scan.
  reflexivity.
Defined.

End Platform.

(** ** A scenario

    The end-to-end example of the specification on the in-memory platform:
    an environment without settings, pc [lab01] registered with token [t1],
    one [reboot] command queued for it. *)

Definition env0 : os_env :=
  {| environ := fun _ => None; gethostname := "server" |}.

Definition clk0 : clock := {| utcnow := 1000; CURRENT_TIMESTAMP := 1000 |}.

Definition lab01 : RegisterIn :=
  {| pc_id := "lab01"; room := "lab"; mac := None; ip := None; token := "t1" |}.

Definition w_start : world memdisk := empty_world [].

Definition w_registered : world memdisk :=
  step env0 clk0 (Register lab01) w_start.

Definition w_queued : world memdisk :=
  step env0 clk0 (CreateCommand "lab01" "reboot" None (Some "change_me"))
    w_registered.

Definition w_polled : world memdisk :=
  step env0 clk0 (Poll "lab01" (Some "t1")) w_queued.

Definition w_reported : world memdisk :=
  step env0 clk0 (ReportResult 1 [] (Some "t1")) w_polled.

(** The record of [lab01] and the row of its command. *)
Definition lab01_row : computers.row :=
  {| computers.id := 1;
     computers.pc_id := "lab01";
     computers.room := "lab";
     computers.mac := None;
     computers.ip := None;
     computers.token := "t1";
     computers.status := "online";
     computers.last_seen := Some 1000;
     computers.blocked := false;
     computers.created_at := 1000 |}.

Definition reboot_row (status : string) : commands.row :=
  {| commands.id := 1;
     commands.pc_id := "lab01";
     commands.cmd_type := "reboot";
     commands.payload := [];
     commands.status := status;
     commands.created_at := 1000 |}.

(** A report for the queued command that was never polled. *)
Definition early_report : request := ReportResult 1 [] (Some "t1").

(** An environment with a base url set. *)
Definition env1 : os_env :=
  {| environ := fun key =>
       if key =? "BASE_URL" then Some "https://pc.example.org//" else None;
     gethostname := "server" |}.

Definition w_uploaded : world memdisk :=
  step env0 clk0 (UploadBinary "agent.exe" [x4d; x5a] (Some "change_me"))
    w_start.

Definition w_published : world memdisk :=
  step env0 clk0 (SetVersion "1.2.0" "agent.exe" (Some "change_me"))
    w_uploaded.

(** ** Serving many requests *)

Section Service.
Context {fs : Type} {FS : FileSystem fs} {JM : JsonModule}.

(** The requests of a list, served one after the other, each at its own
    time. *)
Fixpoint serve (e : os_env) (reqs : list (clock * request)) (w : world fs)
  : world fs :=
  match reqs with
  | [] => w
  | (clk, req) :: reqs' => serve e reqs' (step e clk req w)
  end.

(** The requests that write to the artifact directory, and the ones that
    write to the database. *)
Definition writes_files (req : request) : bool :=
  match req with
  | UploadBinary _ _ _ | SetVersion _ _ _ => true
  | _ => false
  end.

Definition writes_tables (req : request) : bool :=
  match req with
  | Register _ | Poll _ _ | CreateCommand _ _ _ _ | ReportResult _ _ _ => true
  | _ => false
  end.

(** The columns of an agent record no [values(...)] clause names. *)
Definition computer_identity (c : computers.row)
  : Z * string * datetime * bool :=
  (computers.id c, computers.pc_id c, computers.created_at c,
   computers.blocked c).

(** The columns of a command row other than its status. *)
Definition command_content (c : commands.row)
  : Z * string * string * dict * datetime :=
  (commands.id c, commands.pc_id c, commands.cmd_type c, commands.payload c,
   commands.created_at c).

(** A command id that is in the table with no pending row. *)
Definition settled (i : Z) (rows : list commands.row) : Prop :=
  In i (map commands.id rows) /\
  forall c, In c rows -> commands.id c = i -> commands.status c <> "pending".

(** The ids [1; 2; ...; n]. *)
Definition first_ids (n : nat) : list Z := map Z.of_nat (seq 1 n).

End Service.

(** ** Requests that interleave

    Every [await database....] of a handler is a point where the server
    may turn to another request.  A request in flight is at one of these
    points, holding its local variables; [advance] runs it up to its next
    database statement, that statement included. *)

Inductive point : Type :=
| Start (clk : clock) (req : request)
| RegisterWrite (clk : clock) (data : RegisterIn)
    (existing : option computers.row)
| PollTouch (clk : clock) (pc_id : string)
| PollSelect (pc_id : string)
| PollMark (rows : list commands.row) (cmd_list : list json)
| CreateInsert (clk : clock) (pc_id cmd_type : string)
    (payload : option dict)
| ReportOwner (command_id : Z) (result : dict) (tok : option string)
    (row : commands.row)
| ReportUpdate (command_id : Z) (result : dict)
| ReportPrint (command_id : Z) (result : dict).

(** A scheduling decision: a request arrives, or the request at position
    [k] of the pool is resumed. *)
Inductive event : Type :=
| Arrive (clk : clock) (req : request)
| Resume (k : nat).

Definition set_at {A} (k : nat) (x : A) (l : list A) : list A :=
  firstn k l ++ x :: skipn (S k) l.

Definition drop_at {A} (k : nat) (l : list A) : list A :=
  firstn k l ++ skipn (S k) l.

Section Interleaving.
Context {fs : Type} {FS : FileSystem fs} {JM : JsonModule}.

(** One resumption: [inl] is the point the request waits at next, [inr]
    the body of its response. *)
Definition advance (e : os_env) (pt : point) : handler fs (point + json) :=
  match pt with
  | Start clk (Register data) =>
      existing <- fetch_one_computers
                    (fun c => computers.pc_id c =? pc_id data) ;;
      ret (inl (RegisterWrite clk data existing))
  | RegisterWrite clk data existing =>
      let now := utcnow clk in
      match existing with
      | Some _ =>
          execute_update_computers
            (fun c => computers.pc_id c =? pc_id data)
            (register_values data now) ;;
          ret (inr (JDict [("status", JStr "updated")]))
      | None =>
          execute_insert_computers clk (pc_id data) (room data) (mac data)
            (ip data) (token data) "online" now ;;
          ret (inr (JDict [("status", JStr "registered")]))
      end
  | Start clk (Poll pc_id x_agent_token) =>
      row <- fetch_one_computers (fun c => computers.pc_id c =? pc_id) ;;
      match row with
      | None => raise (HTTPException 404 "pc not found")
      | Some row =>
          if header_ne x_agent_token (computers.token row)
          then raise (HTTPException 403 "bad token")
          else ret (inl (PollTouch clk pc_id))
      end
  | PollTouch clk pc_id =>
      execute_update_computers
        (fun c => computers.pc_id c =? pc_id)
        (seen_values (utcnow clk)) ;;
      ret (inl (PollSelect pc_id))
  | PollSelect pc_id =>
      rows <- fetch_all_commands
                (fun c => (commands.pc_id c =? pc_id)
                          && (commands.status c =? "pending")) ;;
      ret (inl (PollMark rows []))
  | PollMark [] cmd_list =>
      ret (inr (JDict [("commands", JList cmd_list)]))
  | PollMark (r :: rows') cmd_list =>
      let cmd_list := cmd_list ++ [cmd_entry r] in
      execute_update_commands
        (fun c => commands.id c =? commands.id r)%Z
        (status_values "sent") ;;
      ret (inl (PollMark rows' cmd_list))
  | Start clk (CreateCommand pc_id cmd_type payload x_admin_key) =>
      if header_ne x_admin_key (ADMIN_KEY e)
      then raise (HTTPException 403 "bad admin key")
      else
        pc <- fetch_one_computers (fun c => computers.pc_id c =? pc_id) ;;
        match pc with
        | None => raise (HTTPException 404 "pc not found")
        | Some _ => ret (inl (CreateInsert clk pc_id cmd_type payload))
        end
  | CreateInsert clk pc_id cmd_type payload =>
      execute_insert_commands clk pc_id cmd_type
        (payload_or_empty payload) "pending" ;;
      ret (inr (JDict [("status", JStr "queued")]))
  | Start clk (ReportResult command_id result x_agent_token) =>
      row <- fetch_one_commands (fun c => commands.id c =? command_id)%Z ;;
      match row with
      | None => raise (HTTPException 404 "command not found")
      | Some row => ret (inl (ReportOwner command_id result x_agent_token row))
      end
  | ReportOwner command_id result x_agent_token row =>
      pc <- fetch_one_computers
              (fun c => computers.pc_id c =? commands.pc_id row) ;;
      match pc with
      | None => raise TypeError
      | Some pc =>
          if header_ne x_agent_token (computers.token pc)
          then raise (HTTPException 403 "bad token")
          else ret (inl (ReportUpdate command_id result))
      end
  | ReportUpdate command_id result =>
      execute_update_commands
        (fun c => commands.id c =? command_id)%Z
        (status_values "done") ;;
      ret (inl (ReportPrint command_id result))
  | ReportPrint command_id result =>
      print (Result_for_command command_id result) ;;
      ret (inr (JDict [("ok", JBool true)]))
  | Start clk Version =>
      doc <- version e ;; ret (inr doc)
  | Start clk (UploadBinary filename contents x_admin_key) =>
      doc <- upload_binary e filename contents x_admin_key ;; ret (inr doc)
  | Start clk (SetVersion v filename x_admin_key) =>
      doc <- set_version e v filename x_admin_key ;; ret (inr doc)
  | Start clk Health =>
      doc <- health ;; ret (inr doc)
  end.

(** The server between two resumptions: the shared state, the requests in
    flight and the responses sent so far. *)
Record server : Type := {
  shared : world fs;
  pool : list point;
  responses : list (outcome json)
}.

Definition schedule (e : os_env) (ev : event) (s : server) : server :=
  match ev with
  | Arrive clk req =>
      {| shared := shared s;
         pool := pool s ++ [Start clk req];
         responses := responses s |}
  | Resume k =>
      match nth_error (pool s) k with
      | None => s
      | Some pt =>
          match advance e pt (shared s) with
          | (Return (inl pt'), w') =>
              {| shared := w';
                 pool := set_at k pt' (pool s);
                 responses := responses s |}
          | (Return (inr doc), w') =>
              {| shared := w';
                 pool := drop_at k (pool s);
                 responses := responses s ++ [Return doc] |}
          | (Raise err, w') =>
              {| shared := w';
                 pool := drop_at k (pool s);
                 responses := responses s ++ [Raise err] |}
          end
      end
  end.

Fixpoint schedule_all (e : os_env) (evs : list event) (s : server)
  : server :=
  match evs with
  | [] => s
  | ev :: evs' => schedule_all e evs' (schedule e ev s)
  end.

(** The server at rest on a state. *)
Definition at_rest (w : world fs) : server :=
  {| shared := w; pool := []; responses := [] |}.

(** How many resumptions a request needs when it runs alone. *)
Definition resumptions (e : os_env) (req : request) (w : world fs) : nat :=
  match req with
  | Register _ => 2
  | Poll pc_id tok =>
      match agent_of w pc_id with
      | None => 1
      | Some row =>
          if header_ne tok (computers.token row) then 1
          else 4 + List.length (pending_of pc_id (commands_rows w))
      end
  | CreateCommand pc_id _ _ key =>
      if header_ne key (ADMIN_KEY e) then 1
      else match agent_of w pc_id with None => 1 | Some _ => 2 end
  | ReportResult i _ tok =>
      match command_of w i with
      | None => 1
      | Some row =>
          match agent_of w (commands.pc_id row) with
          | None => 2
          | Some pc => if header_ne tok (computers.token pc) then 2 else 4
          end
      end
  | Version | UploadBinary _ _ _ | SetVersion _ _ _ | Health => 1
  end.

(** What any number of interleaved resumptions may have done to the
    commands that were in the table: each is still in its place with its
    id, owner, type and payload, its status the same or sent or done;
    rows after them are new. *)
Definition commands_settle (before after : list commands.row) : Prop :=
  exists kept added,
    after = kept ++ added /\
    Forall2 (fun c c' => same_command c c' /\
                         (commands.status c' = commands.status c \/
                          commands.status c' = "sent" \/
                          commands.status c' = "done"))
      before kept /\
    Forall (fun c => valid_status (commands.status c)) added.

(** Two polls of one agent, the second arriving before the first has
    marked anything, and a report that arrives between the selection and
    the marking of a poll. *)
Definition two_polls (clk1 clk2 : clock) (pc_id : string)
  (tok : option string) (pending : nat) : list event :=
  [Arrive clk1 (Poll pc_id tok); Arrive clk2 (Poll pc_id tok)]
  ++ repeat (Resume 0) 3 ++ repeat (Resume 1) 3
  ++ repeat (Resume 0) (S pending) ++ repeat (Resume 0) (S pending).

Definition report_during_poll (clk : clock) (pc_id : string)
  (tok : option string) (command_id : Z) (result : dict) (pending : nat)
  : list event :=
  [Arrive clk (Poll pc_id tok)] ++ repeat (Resume 0) 3
  ++ [Arrive clk (ReportResult command_id result tok)]
  ++ repeat (Resume 1) 4 ++ repeat (Resume 0) (S pending).

End Interleaving.

(** A run of [n] slashes, and whether a text ends in a slash. *)
Fixpoint slashes (n : nat) : string :=
  match n with
  | O => EmptyString
  | S n' => String "/" (slashes n')
  end.

Fixpoint ends_with_slash (s : string) : bool :=
  match s with
  | EmptyString => false
  | String c EmptyString => (c =? "/")%char
  | String _ s' => ends_with_slash s'
  end.

(** A second agent, and the scenario with both registered. *)
Definition lab02 : RegisterIn :=
  {| pc_id := "lab02"; room := "lab"; mac := None; ip := None; token := "t2" |}.

Definition w_two_agents : world memdisk :=
  step env0 clk0 (Register lab02) w_queued.

(** Requests that come after the poll of the scenario: one more command
    for [lab01], and a report for the first. *)
Definition later_requests : list (clock * request) :=
  [(clk0, CreateCommand "lab01" "lock" None (Some "change_me"));
   (clk0, early_report)].

(** The integers SQLite binds as a parameter: signed, 64 bits. *)
Definition sqlite_integer (i : Z) : Prop := - 2 ^ 63 <= i < 2 ^ 63.

(** A store as a poll may find it: [lab01] on record but offline and never
    seen, one of its commands done and one pending, beside a pending
    command of [lab02]. *)
Definition lab01_offline : computers.row :=
  {| computers.id := 1;
     computers.pc_id := "lab01";
     computers.room := "lab";
     computers.mac := Some "00:11:22:33:44:55";
     computers.ip := None;
     computers.token := "t1";
     computers.status := "offline";
     computers.last_seen := None;
     computers.blocked := false;
     computers.created_at := 900 |}.

Definition lab02_row : computers.row :=
  {| computers.id := 2;
     computers.pc_id := "lab02";
     computers.room := "lab";
     computers.mac := None;
     computers.ip := None;
     computers.token := "t2";
     computers.status := "online";
     computers.last_seen := Some 950;
     computers.blocked := false;
     computers.created_at := 950 |}.

Definition lock_row (status : string) : commands.row :=
  {| commands.id := 2;
     commands.pc_id := "lab01";
     commands.cmd_type := "lock";
     commands.payload := [("delay", JInt 5)];
     commands.status := status;
     commands.created_at := 960 |}.

Definition lab02_reboot : commands.row :=
  {| commands.id := 3;
     commands.pc_id := "lab02";
     commands.cmd_type := "reboot";
     commands.payload := [];
     commands.status := "pending";
     commands.created_at := 970 |}.

Definition w_offline : world memdisk :=
  {| computers_rows := [lab01_offline; lab02_row];
     commands_rows := [reboot_row "done"; lock_row "pending"; lab02_reboot];
     stdout := [];
     files := [] |}.

(** Two commands an administrator queues for [lab01]. *)
Definition two_more : list (clock * (string * option dict)) :=
  [(clk0, ("shutdown", None)); (clk0, ("message", Some [("text", JStr "hi")]))].

(** ** Rows and statements *)

Section Facts.
Context {fs : Type} {FS : FileSystem fs} {JM : JsonModule}.

Lemma header_ne_false (header : option string) (expected : string) :
  header_ne header expected = false <-> header = Some expected.
Proof.
  destruct header as [v|]; simpl.
  - rewrite negb_false_iff, String.eqb_eq. split; congruence.
  - split; discriminate.
Qed.

Lemma header_ne_true (header : option string) (expected : string) :
  header_ne header expected = true <-> header <> Some expected.
Proof.
  rewrite <- header_ne_false. destruct (header_ne header expected);
    split; congruence.
Qed.

Lemma next_rowid_above (ids : list Z) (i : Z) :
  In i ids -> i < next_rowid ids.
Proof.
  unfold next_rowid. induction ids as [|j ids IH]; cbn [In fold_right];
    [tauto|].
  intros [->|Hin]; [lia|]. specialize (IH Hin). lia.
Qed.

Lemma next_rowid_fresh (ids : list Z) : ~ In (next_rowid ids) ids.
Proof. intro Hin. apply next_rowid_above in Hin. lia. Qed.

Lemma find_pc_some (rows : list computers.row) (p : string) r :
  find (fun c => computers.pc_id c =? p) rows = Some r ->
  In r rows /\ computers.pc_id r = p.
Proof.
  intro Hf. apply find_some in Hf. now rewrite String.eqb_eq in Hf.
Qed.

Lemma find_pc_none (rows : list computers.row) (p : string) :
  find (fun c => computers.pc_id c =? p) rows = None <->
  ~ In p (map computers.pc_id rows).
Proof.
  induction rows as [|c rows IH]; simpl; [tauto|].
  destruct (computers.pc_id c =? p) eqn:E.
  - apply String.eqb_eq in E. split; [discriminate|tauto].
  - apply String.eqb_neq in E. rewrite IH. tauto.
Qed.

Lemma find_pc_in (rows : list computers.row) (p : string) :
  In p (map computers.pc_id rows) ->
  exists r, find (fun c => computers.pc_id c =? p) rows = Some r.
Proof.
  intro Hin. destruct (find _ rows) as [r|] eqn:E; [now exists r|].
  now apply find_pc_none in E.
Qed.

Lemma existsb_pc_false (rows : list computers.row) (p : string) :
  find (fun c => computers.pc_id c =? p) rows = None ->
  existsb (fun c => computers.pc_id c =? p) rows = false.
Proof.
  induction rows as [|c rows IH]; simpl; [reflexivity|].
  destruct (computers.pc_id c =? p); [discriminate|exact IH].
Qed.

Lemma update_where_length {R} (cond : R -> bool) (values : R -> R) rows :
  List.length (update_where cond values rows) = List.length rows.
Proof. apply length_map. Qed.

Lemma update_where_map {R K} (key : R -> K) (cond : R -> bool)
  (values : R -> R) (rows : list R) :
  (forall r, key (values r) = key r) ->
  map key (update_where cond values rows) = map key rows.
Proof.
  intro Hk. unfold update_where. rewrite map_map. apply map_ext.
  intro r. destruct (cond r); [apply Hk|reflexivity].
Qed.

Lemma update_where_find_pc (cond : computers.row -> bool)
  (values : computers.row -> computers.row) (rows : list computers.row)
  (p : string) :
  (forall r, computers.pc_id (values r) = computers.pc_id r) ->
  find (fun c => computers.pc_id c =? p) (update_where cond values rows) =
  option_map (fun r => if cond r then values r else r)
    (find (fun c => computers.pc_id c =? p) rows).
Proof.
  intro Hk. induction rows as [|c rows IH]; simpl; [reflexivity|].
  destruct (cond c) eqn:Ec; rewrite ?Hk;
    destruct (computers.pc_id c =? p) eqn:Ep; simpl; rewrite ?Ec; auto.
Qed.

Lemma poll_loop_run (rows : list commands.row) :
  forall (cmd_list : list json) (w : world fs),
    poll_loop rows cmd_list w =
    (Return (cmd_list ++ map cmd_entry rows),
     {| computers_rows := computers_rows w;
        commands_rows :=
          update_where (delivered rows) (status_values "sent")
            (commands_rows w);
        stdout := stdout w;
        files := files w |}).
Proof.
  induction rows as [|r rows IH]; intros cmd_list w.
  - simpl. unfold ret. rewrite app_nil_r. f_equal. destruct w; simpl.
    f_equal. unfold update_where. simpl. symmetry. apply map_id.
  - simpl. unfold bind, execute_update_commands. rewrite IH. simpl.
    rewrite <- app_assoc. simpl. do 2 f_equal.
    unfold update_where. rewrite map_map. apply map_ext. intro c.
    unfold delivered. simpl.
    destruct (commands.id c =? commands.id r)%Z eqn:E; simpl;
      destruct (existsb _ rows); reflexivity.
Qed.

(** *** What each handler returns and leaves behind *)

Lemma register_new (clk : clock) (data : RegisterIn) (w : world fs) :
  find (fun c => computers.pc_id c =? pc_id data) (computers_rows w) = None ->
  register clk data w =
  (Return (JDict [("status", JStr "registered")]),
   {| computers_rows :=
        computers_rows w ++
        [new_computer clk (computers_rows w) (pc_id data) (room data)
           (mac data) (ip data) (token data) "online" (utcnow clk)];
      commands_rows := commands_rows w;
      stdout := stdout w;
      files := files w |}).
Proof.
  intro Hf. unfold register, bind, fetch_one_computers. rewrite Hf.
  unfold execute_insert_computers. now rewrite (existsb_pc_false _ _ Hf).
Qed.

Lemma register_existing (clk : clock) (data : RegisterIn) (w : world fs) r :
  find (fun c => computers.pc_id c =? pc_id data) (computers_rows w) = Some r ->
  register clk data w =
  (Return (JDict [("status", JStr "updated")]),
   {| computers_rows :=
        update_where (fun c => computers.pc_id c =? pc_id data)
          (register_values data (utcnow clk)) (computers_rows w);
      commands_rows := commands_rows w;
      stdout := stdout w;
      files := files w |}).
Proof.
  intro Hf. unfold register, bind, fetch_one_computers. now rewrite Hf.
Qed.

Lemma poll_not_found (clk : clock) (p : string) tok (w : world fs) :
  find (fun c => computers.pc_id c =? p) (computers_rows w) = None ->
  poll clk p tok w = (Raise (HTTPException 404 "pc not found"), w).
Proof.
  intro Hf. unfold poll, bind, fetch_one_computers. now rewrite Hf.
Qed.

Lemma poll_forbidden (clk : clock) (p : string) tok (w : world fs) r :
  find (fun c => computers.pc_id c =? p) (computers_rows w) = Some r ->
  tok <> Some (computers.token r) ->
  poll clk p tok w = (Raise (HTTPException 403 "bad token"), w).
Proof.
  intros Hf Ht. unfold poll, bind, fetch_one_computers. rewrite Hf.
  apply header_ne_true in Ht. now rewrite Ht.
Qed.

Lemma poll_ok (clk : clock) (p : string) (w : world fs) r :
  find (fun c => computers.pc_id c =? p) (computers_rows w) = Some r ->
  poll clk p (Some (computers.token r)) w =
  (Return (JDict [("commands",
                   JList (map cmd_entry (pending_of p (commands_rows w))))]),
   {| computers_rows :=
        update_where (fun c => computers.pc_id c =? p)
          (seen_values (utcnow clk)) (computers_rows w);
      commands_rows :=
        update_where (delivered (pending_of p (commands_rows w)))
          (status_values "sent") (commands_rows w);
      stdout := stdout w;
      files := files w |}).
Proof.
  intro Hf. unfold poll, bind, fetch_one_computers. rewrite Hf.
  assert (Hh : header_ne (Some (computers.token r)) (computers.token r) = false)
    by now apply header_ne_false.
  rewrite Hh. unfold execute_update_computers, fetch_all_commands. simpl.
  rewrite poll_loop_run. reflexivity.
Qed.

Lemma create_command_forbidden (e : os_env) (clk : clock) p t payload key
  (w : world fs) :
  key <> Some (ADMIN_KEY e) ->
  create_command e clk p t payload key w =
  (Raise (HTTPException 403 "bad admin key"), w).
Proof.
  intro Hk. unfold create_command. apply header_ne_true in Hk.
  now rewrite Hk.
Qed.

Lemma create_command_not_found (e : os_env) (clk : clock) p t payload
  (w : world fs) :
  find (fun c => computers.pc_id c =? p) (computers_rows w) = None ->
  create_command e clk p t payload (Some (ADMIN_KEY e)) w =
  (Raise (HTTPException 404 "pc not found"), w).
Proof.
  intro Hf. unfold create_command.
  assert (Hh : header_ne (Some (ADMIN_KEY e)) (ADMIN_KEY e) = false)
    by now apply header_ne_false.
  rewrite Hh. unfold bind, fetch_one_computers. now rewrite Hf.
Qed.

Lemma create_command_ok (e : os_env) (clk : clock) p t payload
  (w : world fs) r :
  find (fun c => computers.pc_id c =? p) (computers_rows w) = Some r ->
  create_command e clk p t payload (Some (ADMIN_KEY e)) w =
  (Return (JDict [("status", JStr "queued")]),
   {| computers_rows := computers_rows w;
      commands_rows :=
        commands_rows w ++
        [new_command clk (commands_rows w) p t (payload_or_empty payload)
           "pending"];
      stdout := stdout w;
      files := files w |}).
Proof.
  intro Hf. unfold create_command.
  assert (Hh : header_ne (Some (ADMIN_KEY e)) (ADMIN_KEY e) = false)
    by now apply header_ne_false.
  rewrite Hh. unfold bind, fetch_one_computers. now rewrite Hf.
Qed.

Lemma report_result_not_found (i : Z) result tok (w : world fs) :
  find (fun c => (commands.id c =? i)%Z) (commands_rows w) = None ->
  report_result i result tok w =
  (Raise (HTTPException 404 "command not found"), w).
Proof.
  intro Hf. unfold report_result, bind, fetch_one_commands. now rewrite Hf.
Qed.

Lemma report_result_forbidden (i : Z) result tok (w : world fs) c pc :
  find (fun c => (commands.id c =? i)%Z) (commands_rows w) = Some c ->
  find (fun r => computers.pc_id r =? commands.pc_id c) (computers_rows w)
    = Some pc ->
  tok <> Some (computers.token pc) ->
  report_result i result tok w = (Raise (HTTPException 403 "bad token"), w).
Proof.
  intros Hc Hp Ht. unfold report_result, bind, fetch_one_commands.
  rewrite Hc. unfold fetch_one_computers. rewrite Hp.
  apply header_ne_true in Ht. now rewrite Ht.
Qed.

Lemma report_result_ok (i : Z) result (w : world fs) c pc :
  find (fun c => (commands.id c =? i)%Z) (commands_rows w) = Some c ->
  find (fun r => computers.pc_id r =? commands.pc_id c) (computers_rows w)
    = Some pc ->
  report_result i result (Some (computers.token pc)) w =
  (Return (JDict [("ok", JBool true)]),
   {| computers_rows := computers_rows w;
      commands_rows :=
        update_where (fun c => (commands.id c =? i)%Z) (status_values "done")
          (commands_rows w);
      stdout := stdout w ++ [Result_for_command i result];
      files := files w |}).
Proof.
  intros Hc Hp. unfold report_result, bind, fetch_one_commands.
  rewrite Hc. unfold fetch_one_computers. rewrite Hp.
  assert (Hh : header_ne (Some (computers.token pc)) (computers.token pc)
               = false) by now apply header_ne_false.
  now rewrite Hh.
Qed.

(** *** The invariant of the store *)

Lemma NoDup_map_eq {A K} (key : A -> K) (l : list A) (a b : A) :
  NoDup (map key l) -> In a l -> In b l -> key a = key b -> a = b.
Proof.
  induction l as [|x l IH]; simpl; [tauto|].
  intros Hnd Ha Hb Hk. inversion Hnd as [|? ? Hx Hnd']; subst.
  destruct Ha as [->|Ha], Hb as [->|Hb]; auto.
  - exfalso. apply Hx. rewrite Hk. now apply in_map.
  - exfalso. apply Hx. rewrite <- Hk. now apply in_map.
Qed.

Lemma delivered_pending (p : string) (rows : list commands.row) c :
  NoDup (map commands.id rows) -> In c rows ->
  delivered (pending_of p rows) c = true ->
  commands.pc_id c = p /\ commands.status c = "pending".
Proof.
  intros Hnd Hc Hd. unfold delivered in Hd. apply existsb_exists in Hd.
  destruct Hd as (r & Hr & Hid). apply Z.eqb_eq in Hid.
  unfold pending_of in Hr. apply filter_In in Hr. destruct Hr as [Hr Hcond].
  unfold is_pending_of in Hcond. apply andb_true_iff in Hcond. rewrite !String.eqb_eq in Hcond.
  assert (c = r) by (eapply NoDup_map_eq; eauto). now subst r.
Qed.

Lemma pending_delivered (p : string) (rows : list commands.row) c :
  In c rows -> commands.pc_id c = p -> commands.status c = "pending" ->
  delivered (pending_of p rows) c = true.
Proof.
  intros Hc Hp Hs. unfold delivered. apply existsb_exists. exists c. split.
  - unfold pending_of. apply filter_In. split; [exact Hc|].
    unfold is_pending_of. now rewrite Hp, Hs, !String.eqb_refl.
  - apply Z.eqb_refl.
Qed.

Lemma same_command_refl (c : commands.row) : same_command c c.
Proof. unfold same_command. tauto. Qed.

Lemma same_command_status (st : string) (c : commands.row) :
  same_command c (status_values st c).
Proof. unfold same_command. simpl. tauto. Qed.

Lemma commands_move_refl (allowed : string -> string -> Prop) rows :
  (forall s, allowed s s) -> commands_move allowed rows rows.
Proof.
  intro Hrefl. exists rows, []. rewrite app_nil_r. repeat split; auto.
  induction rows; constructor; auto using same_command_refl.
Qed.

Lemma commands_move_insert (allowed : string -> string -> Prop) rows c :
  (forall s, allowed s s) -> commands.status c = "pending" ->
  commands_move allowed rows (rows ++ [c]).
Proof.
  intros Hrefl Hc. exists rows, [c]. repeat split; auto.
  induction rows; constructor; auto using same_command_refl.
Qed.

Lemma commands_move_update (allowed : string -> string -> Prop)
  (cond : commands.row -> bool) (st : string) rows :
  (forall s, allowed s s) ->
  (forall c, In c rows -> cond c = true -> allowed (commands.status c) st) ->
  commands_move allowed rows (update_where cond (status_values st) rows).
Proof.
  intros Hrefl Hst. exists (update_where cond (status_values st) rows), [].
  rewrite app_nil_r. repeat split; auto.
  induction rows as [|c rows IH]; simpl; constructor.
  - destruct (cond c) eqn:E.
    + split; [apply same_command_status|]. simpl. apply Hst; simpl; auto.
    + split; [apply same_command_refl|apply Hrefl].
  - apply IH. intros c' Hin. apply Hst. simpl. auto.
Qed.

Lemma status_move_refl (req : request) (s : string) : status_move req s s.
Proof. now left. Qed.

Lemma status_move_no_return (req : request) (old new : string) :
  status_move req old new ->
  (new = "pending" -> old = "pending") /\ (old = "done" -> new = "done").
Proof.
  intros [->|[(_ & -> & ->)|(_ & ->)]]; split; auto; discriminate.
Qed.

Lemma commands_move_weaken (P Q : string -> string -> Prop) before after :
  (forall old new, P old new -> Q old new) ->
  commands_move P before after -> commands_move Q before after.
Proof.
  intros HPQ (kept & added & Hafter & Hkept & Hadded).
  exists kept, added. repeat split; auto.
  eapply Forall2_impl; [|exact Hkept]. intros c c' [Hsame Hp]. auto.
Qed.

(** The release handlers and [health] leave both tables as they are. *)
Lemma version_persistent (e : os_env) (w : world fs) :
  persistent (snd (version e w)) = persistent w.
Proof.
  unfold version, bind, path_exists, path_read_text.
  destruct (exists_ _ _); [|reflexivity].
  destruct (read_text _ _); [|reflexivity].
  destruct (loads _); reflexivity.
Qed.

Lemma upload_binary_persistent (e : os_env) f b key (w : world fs) :
  persistent (snd (upload_binary e f b key w)) = persistent w.
Proof.
  unfold upload_binary. destruct (header_ne _ _); reflexivity.
Qed.

Lemma set_version_persistent (e : os_env) v f key (w : world fs) :
  persistent (snd (set_version e v f key w)) = persistent w.
Proof.
  unfold set_version, bind, path_exists.
  destruct (header_ne _ _); [reflexivity|].
  destruct (exists_ _ _); reflexivity.
Qed.

Lemma store_ok_persistent (w w' : world fs) :
  persistent w' = persistent w -> store_ok w -> store_ok w'.
Proof.
  unfold persistent. intros Hp [H1 H2 H3 H4]. injection Hp as Hc Hk.
  constructor; unfold has_computer; rewrite ?Hc, ?Hk; assumption.
Qed.

Lemma register_store_ok (clk : clock) data (w : world fs) :
  store_ok w -> store_ok (snd (register clk data w)).
Proof.
  intros [H1 H2 H3 H4].
  destruct (find (fun c => computers.pc_id c =? pc_id data) (computers_rows w))
    as [r|] eqn:Hf.
  - rewrite (register_existing _ _ _ _ Hf). constructor;
      unfold has_computer; simpl; auto;
      rewrite update_where_map by reflexivity; auto.
  - rewrite (register_new _ _ _ Hf). constructor;
      unfold has_computer; simpl; auto.
    + rewrite map_app. simpl. apply find_pc_none in Hf.
      apply NoDup_app; [exact H1|repeat constructor; simpl; tauto|].
      intros a Ha [<-|[]]. contradiction.
    + eapply Forall_impl; [|exact H3]. intros c Hc. unfold has_computer in Hc.
      rewrite map_app. apply in_or_app. now left.
Qed.

Lemma poll_store_ok (clk : clock) p tok (w : world fs) :
  store_ok w -> store_ok (snd (poll clk p tok w)).
Proof.
  intros [H1 H2 H3 H4].
  destruct (find (fun c => computers.pc_id c =? p) (computers_rows w))
    as [r|] eqn:Hf.
  - destruct (header_ne tok (computers.token r)) eqn:Ht.
    + apply header_ne_true in Ht. rewrite (poll_forbidden _ _ _ _ _ Hf Ht).
      now constructor.
    + apply header_ne_false in Ht. subst tok. rewrite (poll_ok _ _ _ _ Hf).
      constructor; unfold has_computer; simpl.
      * rewrite update_where_map by reflexivity. exact H1.
      * rewrite update_where_map by reflexivity. exact H2.
      * rewrite update_where_map by reflexivity.
        unfold update_where. apply Forall_map.
        eapply Forall_impl; [|exact H3]. intros c Hc.
        destruct (delivered _ c); exact Hc.
      * unfold update_where. apply Forall_map.
        eapply Forall_impl; [|exact H4]. intros c Hc.
        destruct (delivered _ c); [right; left; reflexivity|exact Hc].
  - rewrite (poll_not_found _ _ _ _ Hf). now constructor.
Qed.

Lemma create_command_store_ok (e : os_env) (clk : clock) p t payload key
  (w : world fs) :
  store_ok w -> store_ok (snd (create_command e clk p t payload key w)).
Proof.
  intros [H1 H2 H3 H4].
  destruct (header_ne key (ADMIN_KEY e)) eqn:Hk.
  - apply header_ne_true in Hk. rewrite (create_command_forbidden _ _ _ _ _ _ _ Hk).
    now constructor.
  - apply header_ne_false in Hk. subst key.
    destruct (find (fun c => computers.pc_id c =? p) (computers_rows w))
      as [r|] eqn:Hf.
    + rewrite (create_command_ok _ _ _ _ _ _ _ Hf).
      constructor; unfold has_computer; simpl; auto.
      * rewrite map_app. simpl.
        apply NoDup_app; [exact H2|repeat constructor; simpl; tauto|].
        intros a Ha [<-|[]]. now apply next_rowid_fresh in Ha.
      * apply Forall_app. split; [exact H3|]. repeat constructor. simpl.
        apply find_pc_some in Hf. destruct Hf as [Hin <-].
        now apply in_map.
      * apply Forall_app. split; [exact H4|]. constructor; [|constructor].
        now left.
    + rewrite (create_command_not_found _ _ _ _ _ _ Hf). now constructor.
Qed.

Lemma report_result_store_ok (i : Z) result tok (w : world fs) :
  store_ok w -> store_ok (snd (report_result i result tok w)).
Proof.
  intros [H1 H2 H3 H4].
  destruct (find (fun c => (commands.id c =? i)%Z) (commands_rows w))
    as [c|] eqn:Hc.
  - destruct (find (fun r => computers.pc_id r =? commands.pc_id c)
                (computers_rows w)) as [pc|] eqn:Hp.
    + destruct (header_ne tok (computers.token pc)) eqn:Ht.
      * apply header_ne_true in Ht.
        rewrite (report_result_forbidden _ _ _ _ _ _ Hc Hp Ht).
        now constructor.
      * apply header_ne_false in Ht. subst tok.
        rewrite (report_result_ok _ _ _ _ _ Hc Hp).
        constructor; unfold has_computer; simpl; auto.
        -- rewrite update_where_map by reflexivity. exact H2.
        -- unfold update_where. apply Forall_map.
           eapply Forall_impl; [|exact H3]. intros c' Hc'.
           destruct (commands.id c' =? i)%Z; exact Hc'.
        -- unfold update_where. apply Forall_map.
           eapply Forall_impl; [|exact H4]. intros c' Hc'.
           destruct (commands.id c' =? i)%Z; [right; right; reflexivity|exact Hc'].
    + unfold report_result, bind, fetch_one_commands. rewrite Hc.
      unfold fetch_one_computers. rewrite Hp. now constructor.
  - rewrite (report_result_not_found _ _ _ _ Hc). now constructor.
Qed.

Lemma step_store_ok (e : os_env) (clk : clock) (req : request) (w : world fs) :
  store_ok w -> store_ok (step e clk req w).
Proof.
  intro Hok. unfold step. destruct req; simpl.
  - now apply register_store_ok.
  - now apply poll_store_ok.
  - now apply create_command_store_ok.
  - now apply report_result_store_ok.
  - eapply store_ok_persistent; [apply version_persistent|exact Hok].
  - eapply store_ok_persistent; [apply upload_binary_persistent|exact Hok].
  - eapply store_ok_persistent; [apply set_version_persistent|exact Hok].
  - exact Hok.
Qed.

Lemma reachable_store_ok (e : os_env) (w : world fs) :
  reachable e w -> store_ok w.
Proof.
  induction 1 as [disk|w clk req Hr IH].
  - constructor; simpl; constructor.
  - now apply step_store_ok.
Qed.

(** *** Counting the rows of a [pc_id] *)

Lemma count_pc_keys (p : string) (rows : list computers.row) :
  count_pc p rows =
  List.length (filter (fun q => q =? p) (map computers.pc_id rows)).
Proof.
  unfold count_pc. induction rows as [|c rows IH]; simpl; [reflexivity|].
  destruct (computers.pc_id c =? p); simpl; now rewrite IH.
Qed.

Lemma count_absent (p : string) (keys : list string) :
  ~ In p keys -> filter (fun q => q =? p) keys = [].
Proof.
  induction keys as [|k keys IH]; simpl; [reflexivity|]. intro Hn.
  destruct (k =? p) eqn:E.
  - apply String.eqb_eq in E. tauto.
  - apply IH. tauto.
Qed.

Lemma count_unique (p : string) (keys : list string) :
  NoDup keys -> In p keys ->
  List.length (filter (fun q => q =? p) keys) = 1%nat.
Proof.
  induction keys as [|k keys IH]; simpl; [tauto|].
  intros Hnd Hin. inversion Hnd as [|? ? Hk Hnd']; subst.
  destruct (k =? p) eqn:E.
  - apply String.eqb_eq in E. subst k. simpl.
    now rewrite (count_absent _ _ Hk).
  - apply String.eqb_neq in E. apply IH; [exact Hnd'|]. tauto.
Qed.

Lemma find_pc_app_other (rows : list computers.row) (c : computers.row)
  (p : string) :
  computers.pc_id c <> p ->
  find (fun r => computers.pc_id r =? p) (rows ++ [c]) =
  find (fun r => computers.pc_id r =? p) rows.
Proof.
  intro Hne. induction rows as [|x rows IH]; simpl.
  - apply String.eqb_neq in Hne. now rewrite Hne.
  - destruct (computers.pc_id x =? p); [reflexivity|exact IH].
Qed.

(** *** Polling *)

Lemma filter_none {A} (f : A -> bool) (l : list A) :
  (forall x, In x l -> f x = false) -> filter f l = [].
Proof.
  induction l as [|x l IH]; simpl; [reflexivity|]. intro H.
  rewrite (H x) by auto. apply IH. auto.
Qed.

Lemma filter_all {A} (f : A -> bool) (l : list A) :
  Forall (fun x => f x = true) l -> filter f l = l.
Proof.
  induction 1 as [|x l Hx _ IH]; simpl; [reflexivity|].
  now rewrite Hx, IH.
Qed.

Lemma update_where_ext_in {R} (f g : R -> bool) (values : R -> R) rows :
  (forall r, In r rows -> f r = g r) ->
  update_where f values rows = update_where g values rows.
Proof.
  intro H. unfold update_where. apply map_ext_in. intros r Hr.
  now rewrite (H r Hr).
Qed.

(** After a poll loop over the pending commands of [p], none is left. *)
Lemma pending_after_poll (p : string) (rows : list commands.row) :
  pending_of p
    (update_where (delivered (pending_of p rows)) (status_values "sent") rows)
  = [].
Proof.
  unfold pending_of at 1. apply filter_none. intros c' Hc'.
  unfold update_where in Hc'. apply in_map_iff in Hc'.
  destruct Hc' as (c & <- & Hc). unfold is_pending_of.
  destruct (delivered (pending_of p rows) c) eqn:Hd.
  - simpl. apply andb_false_r.
  - destruct (commands.pc_id c =? p) eqn:Ep; [|reflexivity].
    destruct (commands.status c =? "pending") eqn:Es; [|reflexivity].
    apply String.eqb_eq in Ep, Es.
    now rewrite (pending_delivered _ _ _ Hc Ep Es) in Hd.
Qed.

(** With distinct ids the loop marks the pending commands of [p] and no
    other row. *)
Lemma delivered_is_pending (p : string) (rows : list commands.row) :
  NoDup (map commands.id rows) ->
  update_where (delivered (pending_of p rows)) (status_values "sent") rows =
  update_where (is_pending_of p) (status_values "sent") rows.
Proof.
  intro Hnd. apply update_where_ext_in. intros c Hc. unfold is_pending_of.
  destruct (delivered (pending_of p rows) c) eqn:Hd.
  - destruct (delivered_pending _ _ _ Hnd Hc Hd) as [-> ->].
    now rewrite !String.eqb_refl.
  - destruct (commands.pc_id c =? p) eqn:Ep; [|reflexivity].
    destruct (commands.status c =? "pending") eqn:Es; [|reflexivity].
    apply String.eqb_eq in Ep, Es.
    now rewrite (pending_delivered _ _ _ Hc Ep Es) in Hd.
Qed.

Lemma find_id_skip (i : Z) (rows rest : list commands.row) :
  ~ In i (map commands.id rows) ->
  find (fun c => (commands.id c =? i)%Z) (rows ++ rest) =
  find (fun c => (commands.id c =? i)%Z) rest.
Proof.
  induction rows as [|x rows IH]; simpl; [reflexivity|]. intro Hn.
  destruct (commands.id x =? i)%Z eqn:E.
  - apply Z.eqb_eq in E. tauto.
  - apply IH. tauto.
Qed.

Lemma find_id_updated (f : commands.row -> bool) (st : string)
  (rows : list commands.row) (c : commands.row) :
  NoDup (map commands.id rows) -> In c rows ->
  find (fun x => (commands.id x =? commands.id c)%Z)
    (update_where f (status_values st) rows)
  = Some (if f c then status_values st c else c).
Proof.
  induction rows as [|x rows IH]; simpl; [tauto|].
  intros Hnd Hin. inversion Hnd as [|? ? Hx Hnd']; subst.
  assert (Hid : commands.id (if f x then status_values st x else x)
                = commands.id x) by (destruct (f x); reflexivity).
  rewrite Hid. destruct (commands.id x =? commands.id c)%Z eqn:E.
  - apply Z.eqb_eq in E. destruct Hin as [->|Hin]; [reflexivity|].
    exfalso. apply Hx. rewrite E. now apply in_map.
  - destruct Hin as [->|Hin]; [now rewrite Z.eqb_refl in E|].
    now apply IH.
Qed.

Lemma pending_of_app (p : string) (rows new : list commands.row) :
  Forall (fun c => commands.pc_id c = p /\ commands.status c = "pending") new ->
  pending_of p (rows ++ new) = pending_of p rows ++ new.
Proof.
  intro Hnew. unfold pending_of. rewrite filter_app. f_equal.
  apply filter_all. eapply Forall_impl; [|exact Hnew].
  intros c [Hp Hs]. unfold is_pending_of.
  now rewrite Hp, Hs, !String.eqb_refl.
Qed.

(** *** Enqueueing and the rows a poll marks *)

Lemma enqueue_all_appends (e : os_env) (A : string)
  (cmds : list (clock * (string * option dict))) :
  forall (w : world fs) (row : computers.row),
    agent_of w A = Some row ->
    exists new,
      enqueue_all e A cmds w =
      {| computers_rows := computers_rows w;
         commands_rows := commands_rows w ++ new;
         stdout := stdout w;
         files := files w |} /\
      map (fun c => (commands.pc_id c, commands.cmd_type c,
                     commands.payload c, commands.status c)) new =
      map (fun q => (A, fst (snd q),
                     match snd (snd q) with Some d => d | None => [] end,
                     "pending")) cmds /\
      Forall (fun c => commands.pc_id c = A /\ commands.status c = "pending")
        new.
Proof.
  induction cmds as [|[clk [T P]] cmds IH]; intros w row Hrow.
  - exists []. simpl. rewrite app_nil_r. destruct w; auto.
  - simpl. unfold agent_of in Hrow.
    rewrite (create_command_ok _ _ _ _ _ _ _ Hrow). simpl.
    match goal with
    | |- context [enqueue_all e A cmds ?w'] =>
        destruct (IH w' row Hrow) as (new & Hw & Hmap & Hall)
    end.
    rewrite Hw. simpl. eexists (_ :: new). rewrite <- app_assoc. simpl.
    split; [reflexivity|]. split.
    + simpl. rewrite Hmap. do 2 f_equal. now destruct P as [[|]|].
    + constructor; [simpl; auto|exact Hall].
Qed.

Lemma enqueue_all_ids_unique (e : os_env) (A : string)
  (cmds : list (clock * (string * option dict))) :
  forall (w : world fs) (row : computers.row),
    agent_of w A = Some row ->
    NoDup (map commands.id (commands_rows w)) ->
    NoDup (map commands.id (commands_rows (enqueue_all e A cmds w))).
Proof.
  induction cmds as [|[clk [T P]] cmds IH]; intros w row Hrow Hnd;
    [exact Hnd|].
  simpl. unfold agent_of in Hrow.
  rewrite (create_command_ok _ _ _ _ _ _ _ Hrow). simpl.
  apply (IH _ row); [exact Hrow|]. simpl. rewrite map_app. simpl.
  apply NoDup_app; [exact Hnd|repeat constructor; simpl; tauto|].
  intros a Ha [<-|[]]. now apply next_rowid_fresh in Ha.
Qed.

Lemma update_where_status_Forall2 (cond : commands.row -> bool)
  (st : string) (rows : list commands.row) :
  Forall2 (fun c c' => same_command c c' /\
                       commands.status c'
                       = if cond c then st else commands.status c)
    rows (update_where cond (status_values st) rows).
Proof.
  induction rows as [|c rows IH]; simpl; constructor; [|exact IH].
  destruct (cond c); split;
    auto using same_command_refl, same_command_status.
Qed.

End Facts.

(** ** The properties of the specification *)

Section Claims.
Context {fs : Type} {FS : FileSystem fs} {JM : JsonModule}.

(** C1.  Let [A] be registered and let [create_command] for [A] with type
    [T] and payload [P] succeed.  The command is stored pending; a poll of
    [A] with its token then returns a list that holds the command, with
    type [T] and payload [P] (the empty dict when no payload was given),
    and stores it as sent; the next poll of [A] returns the empty list. *)
Theorem queued_command_is_delivered_once
  (e : os_env) (clk clk2 clk3 : clock) (A T : string) (P : option dict)
  (key : option string) (w w1 : world fs) (row : computers.row) (out : json) :
  agent_of w A = Some row ->
  create_command e clk A T P key w = (Return out, w1) ->
  exists i C entries w2 w3,
    command_of w1 i = Some C /\
    commands.pc_id C = A /\
    commands.cmd_type C = T /\
    commands.payload C = payload_or_empty P /\
    commands.status C = "pending" /\
    (forall d, P = Some d -> payload_or_empty P = d) /\
    poll clk2 A (Some (computers.token row)) w1
      = (Return (JDict [("commands", JList entries)]), w2) /\
    In (entry i T (payload_or_empty P)) entries /\
    command_of w2 i = Some (status_values "sent" C) /\
    poll clk3 A (Some (computers.token row)) w2
      = (Return (JDict [("commands", JList [])]), w3).
Proof.
  intros Hrow Hcreate. unfold agent_of in Hrow.
  destruct (header_ne key (ADMIN_KEY e)) eqn:Hk.
  { apply header_ne_true in Hk.
    rewrite (create_command_forbidden _ _ _ _ _ _ _ Hk) in Hcreate.
    discriminate. }
  apply header_ne_false in Hk. subst key.
  rewrite (create_command_ok _ _ _ _ _ _ _ Hrow) in Hcreate.
  injection Hcreate as _ Hw1.
  set (rows := commands_rows w) in *.
  set (C := new_command clk rows A T (payload_or_empty P) "pending") in *.
  assert (Hfresh : ~ In (commands.id C) (map commands.id rows))
    by apply next_rowid_fresh.
  assert (Hnew : Forall (fun c => commands.pc_id c = A /\
                                  commands.status c = "pending") [C])
    by (repeat constructor).
  assert (Hin : In C (rows ++ [C])) by (apply in_or_app; right; now left).
  assert (Hrow1 : find (fun c => computers.pc_id c =? A) (computers_rows w1)
                  = Some row) by (subst w1; exact Hrow).
  assert (Hcmds1 : commands_rows w1 = rows ++ [C]) by (subst w1; reflexivity).
  pose proof (poll_ok clk2 A w1 row Hrow1) as Hpoll1.
  rewrite Hcmds1 in Hpoll1.
  match type of Hpoll1 with _ = (_, ?w') => set (w2 := w') in * end.
  assert (Hrow2 : find (fun c => computers.pc_id c =? A) (computers_rows w2)
                  = Some (seen_values (utcnow clk2) row)).
  { unfold w2. cbn [computers_rows].
    rewrite update_where_find_pc by reflexivity. rewrite Hrow1. simpl.
    destruct (find_pc_some _ _ _ Hrow) as [_ ->].
    now rewrite String.eqb_refl. }
  pose proof (poll_ok clk3 A w2 _ Hrow2) as Hpoll2.
  change (computers.token (seen_values (utcnow clk2) row))
    with (computers.token row) in Hpoll2.
  assert (Hnone : pending_of A (commands_rows w2) = [])
    by (unfold w2; cbn [commands_rows]; apply pending_after_poll).
  rewrite Hnone in Hpoll2.
  exists (commands.id C), C. do 3 eexists.
  split.
  { unfold command_of. rewrite Hcmds1, (find_id_skip _ _ _ Hfresh). simpl.
    now rewrite Z.eqb_refl. }
  do 4 (split; [reflexivity|]).
  split. { intros d ->. destruct d; reflexivity. }
  split; [exact Hpoll1|].
  split.
  { rewrite (pending_of_app _ _ _ Hnew), map_app. apply in_or_app. right.
    now left. }
  split; [|exact Hpoll2].
  unfold command_of, w2. cbn [commands_rows].
  unfold update_where at 1. rewrite map_app. rewrite find_id_skip.
  - simpl. rewrite (pending_delivered A (rows ++ [C]) C Hin) by reflexivity.
    simpl. now rewrite Z.eqb_refl.
  - fold (update_where (delivered (pending_of A (rows ++ [C])))
            (status_values "sent") rows).
    rewrite update_where_map by reflexivity. exact Hfresh.
Qed.

(** C2, as the handlers have it, for requests served one at a time: each
    handler runs to completion before the next request is taken, which is
    what [step] and [reachable] are.  In every state reached that way a
    request leaves each command row in place with its id, owner, type and
    payload, and moves its status in one of three ways only: not at all;
    from pending to sent, by a poll; to done, by a report, whatever the
    status was (a pending command too).  No row returns to pending or
    leaves done, new rows start pending, and no status other than
    pending, sent and done is ever stored.  Requests that interleave at
    the awaits of [poll] are outside this statement. *)
Theorem status_moves_forward
  (e : os_env) (w : world fs) (clk : clock) (req : request) :
  reachable e w ->
  commands_move
    (fun old new =>
       status_move req old new /\
       (new = "pending" -> old = "pending") /\
       (old = "done" -> new = "done"))
    (commands_rows w) (commands_rows (step e clk req w)) /\
  Forall (fun c => valid_status (commands.status c))
    (commands_rows (step e clk req w)).
Proof.
  intro Hr. apply reachable_store_ok in Hr.
  split; [|now apply step_store_ok].
  apply (commands_move_weaken (status_move req));
    [intros old new Hm; split;
       [exact Hm|exact (status_move_no_return req old new Hm)]|].
  destruct Hr as [_ Hids _ _].
  assert (Hsame : forall w' : world fs,
             commands_rows w' = commands_rows w ->
             commands_move (status_move req) (commands_rows w)
               (commands_rows w')).
  { intros w' ->. apply commands_move_refl, status_move_refl. }
  assert (Hpers : forall w' : world fs,
             persistent w' = persistent w ->
             commands_rows w' = commands_rows w).
  { intros w' Hp. now injection Hp. }
  unfold step.
  destruct req as [data|p tok|p t payload key|i result tok| |f b key|v f key| ];
    simpl.
  - apply Hsame.
    destruct (find (fun c => computers.pc_id c =? pc_id data)
                (computers_rows w)) as [r|] eqn:Hf.
    + now rewrite (register_existing _ _ _ _ Hf).
    + now rewrite (register_new _ _ _ Hf).
  - destruct (find (fun c => computers.pc_id c =? p) (computers_rows w))
      as [r|] eqn:Hf.
    + destruct (header_ne tok (computers.token r)) eqn:Ht.
      * apply header_ne_true in Ht. rewrite (poll_forbidden _ _ _ _ _ Hf Ht).
        now apply Hsame.
      * apply header_ne_false in Ht. subst tok.
        rewrite (poll_ok _ _ _ _ Hf). simpl.
        apply commands_move_update; [apply status_move_refl|].
        intros c Hc Hd. right. left.
        destruct (delivered_pending _ _ _ Hids Hc Hd) as [_ Hs].
        simpl. auto.
    + rewrite (poll_not_found _ _ _ _ Hf). now apply Hsame.
  - destruct (header_ne key (ADMIN_KEY e)) eqn:Hk.
    + apply header_ne_true in Hk.
      rewrite (create_command_forbidden _ _ _ _ _ _ _ Hk). now apply Hsame.
    + apply header_ne_false in Hk. subst key.
      destruct (find (fun c => computers.pc_id c =? p)
                  (computers_rows w)) as [r|] eqn:Hf.
      * rewrite (create_command_ok _ _ _ _ _ _ _ Hf). simpl.
        apply commands_move_insert; [apply status_move_refl|reflexivity].
      * rewrite (create_command_not_found _ _ _ _ _ _ Hf). now apply Hsame.
  - unfold report_result, bind, fetch_one_commands, fetch_one_computers.
    destruct (find _ (commands_rows w)) as [c|]; [|now apply Hsame].
    destruct (find _ (computers_rows w)) as [pc|]; [|now apply Hsame].
    destruct (header_ne _ _); [now apply Hsame|]. simpl.
    apply commands_move_update; [apply status_move_refl|].
    intros c' _ _. right. right. simpl. auto.
  - apply Hsame, Hpers, version_persistent.
  - apply Hsame, Hpers, upload_binary_persistent.
  - apply Hsame, Hpers, set_version_persistent.
  - now apply Hsame.
Qed.

(** C3.  For an existing agent [A], a poll that carries anything but the
    stored token (another string, or no header at all) is answered 403
    "bad token" and leaves the whole state as it was: no command changes
    its status, and neither the status nor [last_seen] of [A] is touched. *)
Theorem poll_wrong_token_changes_nothing
  (clk : clock) (A : string) (t' : option string) (w : world fs)
  (row : computers.row) :
  agent_of w A = Some row ->
  t' <> Some (computers.token row) ->
  poll clk A t' w = (Raise (HTTPException 403 "bad token"), w).
Proof.
  intros Hrow Htok. unfold agent_of in Hrow.
  unfold poll, bind, fetch_one_computers. rewrite Hrow.
  destruct (header_ne t' (computers.token row)) eqn:Hh; [reflexivity|].
  apply header_ne_false in Hh. contradiction.
Qed.

(** C4.  For an existing command [C] whose owner is on record, a report
    that carries anything but the owner's stored token is answered 403
    "bad token"; the state is as it was, so the command is found again
    with the status it had. *)
Theorem report_result_wrong_token_keeps_status
  (command_id : Z) (result : dict) (tok : option string) (w : world fs)
  (C : commands.row) (owner : computers.row) :
  command_of w command_id = Some C ->
  agent_of w (commands.pc_id C) = Some owner ->
  tok <> Some (computers.token owner) ->
  fst (report_result command_id result tok w)
    = Raise (HTTPException 403 "bad token") /\
  snd (report_result command_id result tok w) = w /\
  command_of (snd (report_result command_id result tok w)) command_id
    = Some C.
Proof.
  intros HC Howner Htok. unfold command_of, agent_of in *.
  assert (Hrun : report_result command_id result tok w
                 = (Raise (HTTPException 403 "bad token"), w)).
  { unfold report_result, bind, fetch_one_commands, fetch_one_computers.
    rewrite HC, Howner.
    destruct (header_ne tok (computers.token owner)) eqn:Hh; [reflexivity|].
    apply header_ne_false in Hh. contradiction. }
  rewrite Hrun. simpl. auto.
Qed.

(** C5.  Take any store in which command ids are distinct and [A] has a
    record, whatever its status, and enqueue any sequence of commands for
    [A]: they are appended in that order, pending, each with the payload
    given or the empty dict.  A poll of [A] with its token then succeeds.
    The record of [A] is now online with [last_seen] the time of the
    poll, its other fields kept.  The response lists the pending commands
    of [A] in table order, those pending before followed by the enqueued
    ones in the order of their enqueueing, each as its id, type and
    payload.  In the state the response is returned from, every row that
    was a pending command of [A] has status sent and every other row the
    status it had, and each listed command is found by its id as sent. *)
Theorem poll_delivers_pending_in_order
  (e : os_env) (clk : clock) (A : string)
  (cmds : list (clock * (string * option dict)))
  (w : world fs) (row : computers.row) :
  NoDup (map commands.id (commands_rows w)) ->
  agent_of w A = Some row ->
  exists new w2 seen,
    commands_rows (enqueue_all e A cmds w) = commands_rows w ++ new /\
    map (fun c => (commands.pc_id c, commands.cmd_type c,
                   commands.payload c, commands.status c)) new =
      map (fun q => (A, fst (snd q),
                     match snd (snd q) with Some d => d | None => [] end,
                     "pending")) cmds /\
    poll clk A (Some (computers.token row)) (enqueue_all e A cmds w)
      = (Return
           (JDict
              [("commands",
                JList (map (fun c => entry (commands.id c)
                                       (commands.cmd_type c)
                                       (commands.payload c))
                         (pending_of A (commands_rows w) ++ new)))]),
         w2) /\
    agent_of w2 A = Some seen /\
    computers.status seen = "online" /\
    computers.last_seen seen = Some (utcnow clk) /\
    computers.token seen = computers.token row /\
    computers.id seen = computers.id row /\
    computers.pc_id seen = A /\
    computers.room seen = computers.room row /\
    computers.mac seen = computers.mac row /\
    computers.ip seen = computers.ip row /\
    computers.blocked seen = computers.blocked row /\
    computers.created_at seen = computers.created_at row /\
    Forall2 (fun c c' => same_command c c' /\
                         commands.status c'
                         = if is_pending_of A c then "sent"
                           else commands.status c)
      (commands_rows w ++ new) (commands_rows w2) /\
    Forall (fun c => exists c',
                command_of w2 (commands.id c) = Some c' /\
                commands.status c' = "sent" /\
                same_command c c')
      (pending_of A (commands_rows w) ++ new).
Proof.
  intros Hids Hrow.
  pose proof (enqueue_all_ids_unique e A cmds w row Hrow Hids) as Hids1.
  destruct (enqueue_all_appends e A cmds w row Hrow)
    as (new & Hw1 & Hmap & Hnew).
  set (w1 := enqueue_all e A cmds w) in *.
  assert (Hcmds1 : commands_rows w1 = commands_rows w ++ new)
    by now rewrite Hw1.
  assert (Hrow1 : find (fun c => computers.pc_id c =? A) (computers_rows w1)
                  = Some row) by (rewrite Hw1; exact Hrow).
  rewrite Hcmds1 in Hids1.
  pose proof (poll_ok clk A w1 row Hrow1) as Hpoll.
  rewrite Hcmds1, (pending_of_app _ _ _ Hnew) in Hpoll.
  rewrite <- (pending_of_app _ _ _ Hnew) in Hpoll at 2.
  rewrite (delivered_is_pending _ _ Hids1) in Hpoll.
  match type of Hpoll with _ = (_, ?w') => set (w2 := w') in * end.
  exists new, w2, (seen_values (utcnow clk) row).
  split; [exact Hcmds1|]. split; [exact Hmap|]. split; [exact Hpoll|].
  split.
  { unfold agent_of, w2. cbn [computers_rows].
    rewrite update_where_find_pc by reflexivity. rewrite Hrow1. simpl.
    destruct (find_pc_some _ _ _ Hrow) as [_ ->].
    now rewrite String.eqb_refl. }
  do 4 (split; [reflexivity|]).
  split; [exact (proj2 (find_pc_some _ _ _ Hrow))|].
  do 5 (split; [reflexivity|]).
  split.
  { unfold w2. cbn [commands_rows]. apply update_where_status_Forall2. }
  rewrite <- (pending_of_app _ _ _ Hnew). apply Forall_forall.
  intros c Hc. unfold pending_of in Hc. apply filter_In in Hc.
  destruct Hc as [Hc Hpend]. exists (status_values "sent" c).
  split; [|split; [reflexivity|apply same_command_status]].
  unfold command_of, w2. cbn [commands_rows].
  rewrite (find_id_updated _ _ _ _ Hids1 Hc). now rewrite Hpend.
Qed.

(** C6.  On a table whose [pc_id]s are distinct, [register] for a [pc_id]
    without a record answers [{"status": "registered"}] and adds exactly
    one row, online, with the supplied fields; for a [pc_id] with a record
    it answers [{"status": "updated"}], adds no row, and the record now
    carries the supplied token, ip, mac and room, the time of the request
    as [last_seen] and the status online, its id, [blocked] and
    [created_at] being kept.  Either way exactly one row has that [pc_id]
    afterwards, the records of other agents and the commands are as they
    were. *)
Theorem register_upserts
  (clk : clock) (data : RegisterIn) (w : world fs) :
  NoDup (map computers.pc_id (computers_rows w)) ->
  let (out, w') := register clk data w in
  match agent_of w (pc_id data) with
  | None =>
      out = Return (JDict [("status", JStr "registered")]) /\
      exists new,
        computers_rows w' = computers_rows w ++ [new] /\
        computers.pc_id new = pc_id data /\
        computers.status new = "online" /\
        computers.token new = token data /\
        computers.ip new = ip data /\
        computers.mac new = mac data /\
        computers.room new = room data /\
        computers.last_seen new = Some (utcnow clk) /\
        computers.blocked new = false
  | Some old =>
      out = Return (JDict [("status", JStr "updated")]) /\
      List.length (computers_rows w') = List.length (computers_rows w) /\
      exists upd,
        agent_of w' (pc_id data) = Some upd /\
        computers.pc_id upd = pc_id data /\
        computers.status upd = "online" /\
        computers.token upd = token data /\
        computers.ip upd = ip data /\
        computers.mac upd = mac data /\
        computers.room upd = room data /\
        computers.last_seen upd = Some (utcnow clk) /\
        computers.id upd = computers.id old /\
        computers.blocked upd = computers.blocked old /\
        computers.created_at upd = computers.created_at old
  end /\
  count_pc (pc_id data) (computers_rows w') = 1%nat /\
  NoDup (map computers.pc_id (computers_rows w')) /\
  (forall p, p <> pc_id data -> agent_of w' p = agent_of w p) /\
  commands_rows w' = commands_rows w.
Proof.
  intro Hnd. unfold agent_of.
  destruct (find (fun c => computers.pc_id c =? pc_id data) (computers_rows w))
    as [old|] eqn:Hf.
  - rewrite (register_existing _ _ _ _ Hf).
    assert (Hkeys : map computers.pc_id
                      (update_where (fun c => computers.pc_id c =? pc_id data)
                         (register_values data (utcnow clk))
                         (computers_rows w))
                    = map computers.pc_id (computers_rows w))
      by now apply update_where_map.
    destruct (find_pc_some _ _ _ Hf) as [Hin Hpc].
    cbn [computers_rows commands_rows].
    split; [|split; [|split; [|split]]].
    + split; [reflexivity|]. split; [apply update_where_length|].
      exists (register_values data (utcnow clk) old).
      rewrite update_where_find_pc by reflexivity. rewrite Hf. simpl.
      rewrite Hpc, String.eqb_refl. repeat split; auto.
    + rewrite count_pc_keys, Hkeys. apply count_unique; [exact Hnd|].
      rewrite <- Hpc. now apply in_map.
    + now rewrite Hkeys.
    + intros p Hp. rewrite update_where_find_pc by reflexivity.
      destruct (find (fun c => computers.pc_id c =? p) (computers_rows w))
        as [r|] eqn:Hr; [|reflexivity].
      simpl. destruct (find_pc_some _ _ _ Hr) as [_ Hrp].
      apply String.eqb_neq in Hp. rewrite Hrp, Hp. reflexivity.
    + reflexivity.
  - rewrite (register_new _ _ _ Hf). cbn [computers_rows commands_rows].
    pose proof (proj1 (find_pc_none _ _) Hf) as Hnot.
    split; [|split; [|split; [|split]]].
    + split; [reflexivity|]. eexists. split; [reflexivity|].
      simpl. repeat split; reflexivity.
    + rewrite count_pc_keys, map_app, filter_app, length_app.
      rewrite (count_absent _ _ Hnot). simpl. now rewrite String.eqb_refl.
    + rewrite map_app. simpl.
      apply NoDup_app; [exact Hnd|repeat constructor; simpl; tauto|].
      intros a Ha [<-|[]]. contradiction.
    + intros p Hp. apply find_pc_app_other. simpl. congruence.
    + reflexivity.
Qed.

(** C7.  With the admin key: [set_version] for a filename whose path in
    the artifact directory does not exist is answered 404 "file not found"
    and changes nothing; once [upload_binary] has written the file,
    [set_version v f] succeeds, and [GET /version] then returns the
    descriptor it published, with version [v] and the url
    [<base>/downloads/f]. *)
Theorem set_version_publishes
  (e : os_env) (v f : string) (contents : list byte) (w : world fs) :
  (exists_ (files w) (joinpath (DOWNLOAD_FOLDER e) f) = false ->
   set_version e v f (Some (ADMIN_KEY e)) w
     = (Raise (HTTPException 404 "file not found"), w)) /\
  exists w1 w2,
    upload_binary e f contents (Some (ADMIN_KEY e)) w
      = (Return (JDict [("ok", JBool true);
                        ("path", JStr ("/downloads/" ++ f))]), w1) /\
    set_version e v f (Some (ADMIN_KEY e)) w1
      = (Return (JDict [("ok", JBool true);
                        ("version",
                         JDict (descriptor v
                                  (get_base_url e ++ "/downloads/" ++ f)))]),
         w2) /\
    version e w2
      = (Return (JDict (descriptor v (get_base_url e ++ "/downloads/" ++ f))),
         w2).
Proof.
  assert (Hkey : header_ne (Some (ADMIN_KEY e)) (ADMIN_KEY e) = false)
    by now apply header_ne_false.
  split.
  - intro Hno. unfold set_version, bind, path_exists.
    now rewrite Hkey, Hno.
  - unfold upload_binary, set_version, version, bind, path_write_bytes,
      path_write_text, path_exists, path_read_text, ret.
    rewrite Hkey. do 2 eexists. split; [reflexivity|].
    cbn [files]. rewrite exists_write_bytes. cbn [negb].
    split; [reflexivity|].
    simpl. rewrite exists_write_text. simpl. rewrite read_write_text.
    now rewrite loads_dumps_descriptor.
Qed.

(** C8.  For an existing command and the token of its owner, two reports
    that differ in the result document only give the same response
    [{"ok": true}] and the same tables and files; the document reaches
    the printed line and nothing else. *)
Theorem report_result_does_not_store_result
  (command_id : Z) (r1 r2 : dict) (tok : option string) (w : world fs)
  (C : commands.row) (owner : computers.row) :
  command_of w command_id = Some C ->
  agent_of w (commands.pc_id C) = Some owner ->
  tok = Some (computers.token owner) ->
  let (out1, w1) := report_result command_id r1 tok w in
  let (out2, w2) := report_result command_id r2 tok w in
  out1 = Return (JDict [("ok", JBool true)]) /\
  out2 = out1 /\
  persistent w1 = persistent w2 /\
  files w1 = files w2 /\
  stdout w1 = stdout w ++ [Result_for_command command_id r1] /\
  stdout w2 = stdout w ++ [Result_for_command command_id r2].
Proof.
  intros HC Howner ->. unfold command_of, agent_of in *.
  rewrite !(report_result_ok _ _ _ _ _ HC Howner). simpl.
  repeat split; reflexivity.
Qed.

(** C9.  In every reachable state each command row names the [pc_id] of a
    row of [computers]; so the owner lookup of [report_result] finds a
    record, and the handler never fails on a missing row. *)
Theorem commands_refer_to_computers
  (e : os_env) (w : world fs) :
  reachable e w ->
  Forall (fun c => exists pc, In pc (computers_rows w) /\
                              computers.pc_id pc = commands.pc_id c)
    (commands_rows w) /\
  (forall c, In c (commands_rows w) ->
             exists pc, agent_of w (commands.pc_id c) = Some pc) /\
  (forall command_id result tok,
      fst (report_result command_id result tok w) <> Raise TypeError).
Proof.
  intro Hr. apply reachable_store_ok in Hr. destruct Hr as [_ _ Hown _].
  rewrite Forall_forall in Hown. unfold has_computer in Hown.
  assert (Hagent : forall c, In c (commands_rows w) ->
                     exists pc, agent_of w (commands.pc_id c) = Some pc).
  { intros c Hc. apply find_pc_in. now apply Hown. }
  split; [|split; [exact Hagent|]].
  - apply Forall_forall. intros c Hc. destruct (Hagent c Hc) as [pc Hpc].
    apply find_pc_some in Hpc. now exists pc.
  - intros i result tok. unfold report_result, bind, fetch_one_commands.
    destruct (find _ (commands_rows w)) as [c|] eqn:Hc; [|discriminate].
    apply find_some in Hc. destruct (Hagent c (proj1 Hc)) as [pc Hpc].
    unfold agent_of in Hpc. unfold fetch_one_computers. rewrite Hpc.
    destruct (header_ne tok (computers.token pc)); discriminate.
Qed.

(** C10.  Once a report for a command has succeeded, a second report with
    the same token succeeds again with [{"ok": true}], the command is
    still done, and both tables are what they were after the first. *)
Theorem report_result_twice
  (command_id : Z) (r1 r2 : dict) (tok : option string) (w w1 : world fs)
  (out : json) :
  report_result command_id r1 tok w = (Return out, w1) ->
  exists C w2,
    out = JDict [("ok", JBool true)] /\
    command_of w1 command_id = Some C /\
    commands.status C = "done" /\
    report_result command_id r2 tok w1
      = (Return (JDict [("ok", JBool true)]), w2) /\
    persistent w2 = persistent w1 /\
    command_of w2 command_id = Some C.
Proof.
  intro Hrun. unfold report_result, bind, fetch_one_commands in Hrun.
  destruct (find _ (commands_rows w)) as [c|] eqn:Hc; [|discriminate].
  unfold fetch_one_computers in Hrun.
  destruct (find _ (computers_rows w)) as [pc|] eqn:Hp; [|discriminate].
  destruct (header_ne tok (computers.token pc)) eqn:Hh; [discriminate|].
  apply header_ne_false in Hh. subst tok.
  unfold execute_update_commands, print, ret in Hrun. simpl in Hrun.
  injection Hrun as Hout Hw1.
  set (done := update_where (fun c => (commands.id c =? command_id)%Z)
                 (status_values "done") (commands_rows w)) in *.
  assert (Hfind : forall rows,
             find (fun c => (commands.id c =? command_id)%Z) rows = Some c ->
             find (fun c => (commands.id c =? command_id)%Z)
               (update_where (fun c => (commands.id c =? command_id)%Z)
                  (status_values "done") rows)
             = Some (status_values "done" c)).
  { induction rows as [|x rows IH]; simpl; [discriminate|].
    destruct (commands.id x =? command_id)%Z eqn:Ex; simpl; rewrite Ex.
    - now intros [= ->].
    - exact IH. }
  assert (Hidem : update_where (fun c => (commands.id c =? command_id)%Z)
                    (status_values "done") done = done).
  { unfold done, update_where. rewrite map_map. apply map_ext. intro x.
    destruct (commands.id x =? command_id)%Z eqn:Ex; simpl; rewrite Ex;
      reflexivity. }
  assert (HC1 : command_of w1 command_id = Some (status_values "done" c)).
  { subst w1. unfold command_of. simpl. now apply Hfind. }
  assert (Hp1 : agent_of w1 (commands.pc_id (status_values "done" c))
                = Some pc).
  { subst w1. unfold agent_of. simpl. exact Hp. }
  exists (status_values "done" c). eexists.
  split; [now symmetry|]. split; [exact HC1|]. split; [reflexivity|].
  rewrite (report_result_ok _ _ _ _ _ HC1 Hp1).
  split; [reflexivity|]. subst w1. unfold persistent, command_of. simpl.
  fold done. rewrite Hidem. split; [reflexivity|]. now apply Hfind.
Qed.

End Claims.

(** ** The scenario, checked *)

Example scenario_registered :
  persistent w_registered = ([lab01_row], []).
Proof. reflexivity. Qed.

Example scenario_queued :
  persistent w_queued = ([lab01_row], [reboot_row "pending"]).
Proof. reflexivity. Qed.

Example scenario_polled :
  handle env0 clk0 (Poll "lab01" (Some "t1")) w_queued
    = (Return (JDict [("commands", JList [entry 1 "reboot" []])]), w_polled)
  /\ persistent w_polled = ([lab01_row], [reboot_row "sent"]).
Proof. split; reflexivity. Qed.

Example scenario_reported :
  handle env0 clk0 (ReportResult 1 [] (Some "t1")) w_polled
    = (Return (JDict [("ok", JBool true)]), w_reported)
  /\ persistent w_reported = ([lab01_row], [reboot_row "done"]).
Proof. split; reflexivity. Qed.

Example scenario_published :
  handle env0 clk0 (SetVersion "1.2.0" "agent.exe" (Some "change_me"))
    w_uploaded
    = (Return (JDict [("ok", JBool true);
                      ("version",
                       JDict (descriptor "1.2.0"
                                "http://server/downloads/agent.exe"))]),
       w_published) /\
  handle env0 clk0 Version w_published
    = (Return (JDict (descriptor "1.2.0"
                        "http://server/downloads/agent.exe")),
       w_published) /\
  handle env0 clk0 Version w_start
    = (Return (JDict (descriptor "0.0.0" "")), w_start).
Proof. repeat split; vm_compute; reflexivity. Qed.

Example scenario_offline_poll :
  handle env0 clk0 (Poll "lab01" (Some "t1"))
    (enqueue_all env0 "lab01" two_more w_offline)
  = (Return
       (JDict
          [("commands",
            JList [entry 2 "lock" [("delay", JInt 5)];
                   entry 4 "shutdown" [];
                   entry 5 "message" [("text", JStr "hi")]])]),
     step env0 clk0 (Poll "lab01" (Some "t1"))
       (enqueue_all env0 "lab01" two_more w_offline))
  /\ map commands.status
       (commands_rows
          (step env0 clk0 (Poll "lab01" (Some "t1"))
             (enqueue_all env0 "lab01" two_more w_offline)))
     = ["done"; "sent"; "pending"; "sent"; "sent"]
  /\ map computers.status
       (computers_rows
          (step env0 clk0 (Poll "lab01" (Some "t1"))
             (enqueue_all env0 "lab01" two_more w_offline)))
     = ["online"; "online"].
Proof. repeat split; vm_compute; reflexivity. Qed.

Example scenario_base_url :
  get_base_url env0 = "http://server" /\
  get_base_url env1 = "https://pc.example.org".
Proof. split; reflexivity. Qed.

Lemma w_queued_reachable : reachable env0 w_queued.
Proof.
  unfold w_queued, w_registered. do 2 apply reachable_step.
  apply reachable_start.
Qed.

Lemma w_polled_reachable : reachable env0 w_polled.
Proof. unfold w_polled. apply reachable_step, w_queued_reachable. Qed.

(** C2, as stated, fails: a report with the owner's token for a command
    that was queued but never polled takes it from pending to done at
    once, a move the chain does not have. *)
Lemma early_report_leaves_the_chain :
  commands_rows w_queued = [reboot_row "pending"] /\
  commands_rows (step env0 clk0 early_report w_queued) = [reboot_row "done"] /\
  ~ follows_chain (fs := memdisk) env0.
Proof.
  split; [reflexivity|]. split; [reflexivity|]. intro Hchain.
  destruct (Hchain w_queued clk0 early_report w_queued_reachable)
    as (kept & added & Hafter & Hkept & _).
  change (commands_rows w_queued) with [reboot_row "pending"] in Hkept.
  change (commands_rows (step env0 clk0 early_report w_queued))
    with [reboot_row "done"] in Hafter.
  inversion Hkept as [|c c' l l' [_ Hmove] Hrest]; subst.
  inversion Hrest; subst. simpl in Hafter. injection Hafter as <- _.
  destruct Hmove as [Hmove|[(_ & _ & Hmove)|(_ & Hmove & _)]];
    simpl in Hmove; discriminate.
Qed.

(** ** The theorems at the scenario *)

Lemma queued_command_is_delivered_once_at_lab01 :
  agent_of w_registered "lab01" = Some lab01_row /\
  create_command env0 clk0 "lab01" "reboot" None (Some "change_me")
    w_registered
    = (Return (JDict [("status", JStr "queued")]), w_queued) /\
  exists i C entries w2 w3,
    command_of w_queued i = Some C /\
    commands.pc_id C = "lab01" /\
    commands.cmd_type C = "reboot" /\
    commands.payload C = payload_or_empty None /\
    commands.status C = "pending" /\
    (forall d, None = Some d -> payload_or_empty None = d) /\
    poll clk0 "lab01" (Some (computers.token lab01_row)) w_queued
      = (Return (JDict [("commands", JList entries)]), w2) /\
    In (entry i "reboot" (payload_or_empty None)) entries /\
    command_of w2 i = Some (status_values "sent" C) /\
    poll clk0 "lab01" (Some (computers.token lab01_row)) w2
      = (Return (JDict [("commands", JList [])]), w3).
Proof.
  split; [reflexivity|]. split; [reflexivity|].
  apply (queued_command_is_delivered_once env0 clk0 clk0 clk0 "lab01"
           "reboot" None (Some "change_me") w_registered w_queued lab01_row
           (JDict [("status", JStr "queued")]));
    reflexivity.
Defined.

Lemma status_moves_forward_at_early_report :
  reachable env0 w_queued /\
  commands_move
    (fun old new =>
       status_move early_report old new /\
       (new = "pending" -> old = "pending") /\
       (old = "done" -> new = "done"))
    (commands_rows w_queued)
    (commands_rows (step env0 clk0 early_report w_queued)) /\
  Forall (fun c => valid_status (commands.status c))
    (commands_rows (step env0 clk0 early_report w_queued)).
Proof.
  split; [exact w_queued_reachable|].
  apply (status_moves_forward env0 w_queued clk0 early_report).
  exact w_queued_reachable.
Defined.

Lemma poll_wrong_token_at_lab01 :
  agent_of w_queued "lab01" = Some lab01_row /\
  Some "t2" <> Some (computers.token lab01_row) /\
  poll clk0 "lab01" (Some "t2") w_queued
    = (Raise (HTTPException 403 "bad token"), w_queued).
Proof.
  split; [reflexivity|]. split; [discriminate|].
  apply (poll_wrong_token_changes_nothing clk0 "lab01" (Some "t2") w_queued
           lab01_row); [reflexivity|discriminate].
Defined.

Lemma report_result_wrong_token_at_lab01 :
  command_of w_polled 1 = Some (reboot_row "sent") /\
  agent_of w_polled (commands.pc_id (reboot_row "sent")) = Some lab01_row /\
  fst (report_result 1 [] (Some "t2") w_polled)
    = Raise (HTTPException 403 "bad token") /\
  snd (report_result 1 [] (Some "t2") w_polled) = w_polled /\
  command_of (snd (report_result 1 [] (Some "t2") w_polled)) 1
    = Some (reboot_row "sent").
Proof.
  split; [reflexivity|]. split; [reflexivity|].
  apply (report_result_wrong_token_keeps_status 1 [] (Some "t2") w_polled
           (reboot_row "sent") lab01_row);
    [reflexivity|reflexivity|discriminate].
Defined.

Lemma poll_delivers_pending_in_order_at_lab01 :
  NoDup (map commands.id (commands_rows w_offline)) /\
  agent_of w_offline "lab01" = Some lab01_offline /\
  exists new w2 seen,
    commands_rows (enqueue_all env0 "lab01" two_more w_offline)
      = commands_rows w_offline ++ new /\
    map (fun c => (commands.pc_id c, commands.cmd_type c,
                   commands.payload c, commands.status c)) new =
      map (fun q => ("lab01", fst (snd q),
                     match snd (snd q) with Some d => d | None => [] end,
                     "pending")) two_more /\
    poll clk0 "lab01" (Some (computers.token lab01_offline))
      (enqueue_all env0 "lab01" two_more w_offline)
      = (Return
           (JDict
              [("commands",
                JList (map (fun c => entry (commands.id c)
                                       (commands.cmd_type c)
                                       (commands.payload c))
                         (pending_of "lab01" (commands_rows w_offline)
                          ++ new)))]),
         w2) /\
    agent_of w2 "lab01" = Some seen /\
    computers.status seen = "online" /\
    computers.last_seen seen = Some (utcnow clk0) /\
    computers.token seen = computers.token lab01_offline /\
    computers.id seen = computers.id lab01_offline /\
    computers.pc_id seen = "lab01" /\
    computers.room seen = computers.room lab01_offline /\
    computers.mac seen = computers.mac lab01_offline /\
    computers.ip seen = computers.ip lab01_offline /\
    computers.blocked seen = computers.blocked lab01_offline /\
    computers.created_at seen = computers.created_at lab01_offline /\
    Forall2 (fun c c' => same_command c c' /\
                         commands.status c'
                         = if is_pending_of "lab01" c then "sent"
                           else commands.status c)
      (commands_rows w_offline ++ new) (commands_rows w2) /\
    Forall (fun c => exists c',
                command_of w2 (commands.id c) = Some c' /\
                commands.status c' = "sent" /\
                same_command c c')
      (pending_of "lab01" (commands_rows w_offline) ++ new).
Proof.
  assert (Hids : NoDup (map commands.id (commands_rows w_offline))).
  { simpl. repeat constructor; simpl; intuition discriminate. }
  split; [exact Hids|]. split; [reflexivity|].
  apply (poll_delivers_pending_in_order env0 clk0 "lab01" two_more
           w_offline lab01_offline); [exact Hids|reflexivity].
Defined.

Lemma register_upserts_at_lab01 :
  NoDup (map computers.pc_id (computers_rows w_queued)) /\
  let (out, w') := register clk0 lab01 w_queued in
  out = Return (JDict [("status", JStr "updated")]) /\
  count_pc "lab01" (computers_rows w') = 1%nat.
Proof.
  assert (Hnd : NoDup (map computers.pc_id (computers_rows w_queued)))
    by (repeat constructor; simpl; tauto).
  split; [exact Hnd|].
  pose proof (register_upserts clk0 lab01 w_queued Hnd) as H.
  destruct (register clk0 lab01 w_queued) as [out w'].
  change (agent_of w_queued (pc_id lab01)) with (Some lab01_row) in H.
  destruct H as ((Hout & _) & Hcount & _). split; [exact Hout|exact Hcount].
Defined.

Lemma set_version_publishes_at_agent_exe :
  exists_ (files w_start) (joinpath (DOWNLOAD_FOLDER env0) "agent.exe") = false /\
  set_version env0 "1.2.0" "agent.exe" (Some (ADMIN_KEY env0)) w_start
    = (Raise (HTTPException 404 "file not found"), w_start).
Proof.
  split; [reflexivity|].
  apply (proj1 (set_version_publishes env0 "1.2.0" "agent.exe" [x4d; x5a]
                  w_start)).
  reflexivity.
Defined.

Lemma report_result_does_not_store_result_at_lab01 :
  let (out1, w1) := report_result 1 [] (Some "t1") w_polled in
  let (out2, w2) :=
    report_result 1 [("exit_code", JInt 1)] (Some "t1") w_polled in
  out1 = Return (JDict [("ok", JBool true)]) /\
  out2 = out1 /\
  persistent w1 = persistent w2 /\
  files w1 = files w2 /\
  stdout w1 = stdout w_polled ++ [Result_for_command 1 []] /\
  stdout w2 = stdout w_polled
              ++ [Result_for_command 1 [("exit_code", JInt 1)]].
Proof.
  apply (report_result_does_not_store_result 1 [] [("exit_code", JInt 1)]
           (Some "t1") w_polled (reboot_row "sent") lab01_row);
    reflexivity.
Defined.

Lemma commands_refer_to_computers_at_lab01 :
  reachable env0 w_polled /\
  Forall (fun c => exists pc, In pc (computers_rows w_polled) /\
                              computers.pc_id pc = commands.pc_id c)
    (commands_rows w_polled) /\
  (forall c, In c (commands_rows w_polled) ->
             exists pc, agent_of w_polled (commands.pc_id c) = Some pc) /\
  (forall command_id result tok,
      fst (report_result command_id result tok w_polled) <> Raise TypeError).
Proof.
  split; [exact w_polled_reachable|].
  apply (commands_refer_to_computers env0 w_polled).
  exact w_polled_reachable.
Defined.

Lemma report_result_twice_at_lab01 :
  report_result 1 [] (Some "t1") w_polled
    = (Return (JDict [("ok", JBool true)]), w_reported) /\
  exists C w2,
    JDict [("ok", JBool true)] = JDict [("ok", JBool true)] /\
    command_of w_reported 1 = Some C /\
    commands.status C = "done" /\
    report_result 1 [("exit_code", JInt 0)] (Some "t1") w_reported
      = (Return (JDict [("ok", JBool true)]), w2) /\
    persistent w2 = persistent w_reported /\
    command_of w2 1 = Some C.
Proof.
  split; [reflexivity|].
  apply (report_result_twice 1 [] [("exit_code", JInt 0)] (Some "t1")
           w_polled w_reported (JDict [("ok", JBool true)])).
  reflexivity.
Defined.

(** ** Further properties of the handlers *)

Section Shapes.
Context {fs : Type} {FS : FileSystem fs} {JM : JsonModule}.

(** What one request can do to the commands table. *)
Lemma step_commands_shape (e : os_env) (clk : clock) (req : request)
  (w : world fs) :
  commands_rows (step e clk req w) = commands_rows w \/
  (exists cond st,
      (st = "sent" \/ st = "done") /\
      commands_rows (step e clk req w)
        = update_where cond (status_values st) (commands_rows w)) \/
  (exists p t payload,
      In p (map computers.pc_id (computers_rows w)) /\
      commands_rows (step e clk req w)
        = commands_rows w
          ++ [new_command clk (commands_rows w) p t payload "pending"]).
Proof.
  assert (Hpers : forall w' : world fs,
             persistent w' = persistent w ->
             commands_rows w' = commands_rows w).
  { intros w' Hp. now injection Hp. }
  unfold step.
  destruct req as [data|p tok|p t payload key|i result tok| |f b key|v f key| ];
    simpl.
  - left.
    destruct (find (fun c => computers.pc_id c =? pc_id data)
                (computers_rows w)) as [r|] eqn:Hf.
    + now rewrite (register_existing _ _ _ _ Hf).
    + now rewrite (register_new _ _ _ Hf).
  - destruct (find (fun c => computers.pc_id c =? p) (computers_rows w))
      as [r|] eqn:Hf.
    + destruct (header_ne tok (computers.token r)) eqn:Ht.
      * apply header_ne_true in Ht. rewrite (poll_forbidden _ _ _ _ _ Hf Ht).
        now left.
      * apply header_ne_false in Ht. subst tok.
        rewrite (poll_ok _ _ _ _ Hf). right. left. simpl. eauto.
    + rewrite (poll_not_found _ _ _ _ Hf). now left.
  - destruct (header_ne key (ADMIN_KEY e)) eqn:Hk.
    + apply header_ne_true in Hk.
      rewrite (create_command_forbidden _ _ _ _ _ _ _ Hk). now left.
    + apply header_ne_false in Hk. subst key.
      destruct (find (fun c => computers.pc_id c =? p) (computers_rows w))
        as [r|] eqn:Hf.
      * rewrite (create_command_ok _ _ _ _ _ _ _ Hf). right. right. simpl.
        exists p, t, (payload_or_empty payload). split; [|reflexivity].
        destruct (find_pc_some _ _ _ Hf) as [Hin <-]. now apply in_map.
      * rewrite (create_command_not_found _ _ _ _ _ _ Hf). now left.
  - unfold report_result, bind, fetch_one_commands, fetch_one_computers.
    destruct (find _ (commands_rows w)) as [c|]; [|now left].
    destruct (find _ (computers_rows w)) as [pc|]; [|now left].
    destruct (header_ne _ _); [now left|]. right. left. simpl. eauto.
  - left. apply Hpers, version_persistent.
  - left. apply Hpers, upload_binary_persistent.
  - left. apply Hpers, set_version_persistent.
  - now left.
Qed.

(** What one request can do to the computers table. *)
Lemma step_computers_shape (e : os_env) (clk : clock) (req : request)
  (w : world fs) :
  computers_rows (step e clk req w) = computers_rows w \/
  (exists cond values,
      (forall c, computer_identity (values c) = computer_identity c /\
                 computers.status (values c) = "online" /\
                 computers.last_seen (values c) = Some (utcnow clk)) /\
      computers_rows (step e clk req w)
        = update_where cond values (computers_rows w)) \/
  (exists data,
      ~ In (pc_id data) (map computers.pc_id (computers_rows w)) /\
      computers_rows (step e clk req w)
        = computers_rows w
          ++ [new_computer clk (computers_rows w) (pc_id data) (room data)
                (mac data) (ip data) (token data) "online" (utcnow clk)]).
Proof.
  assert (Hpers : forall w' : world fs,
             persistent w' = persistent w ->
             computers_rows w' = computers_rows w).
  { intros w' Hp. now injection Hp. }
  unfold step.
  destruct req as [data|p tok|p t payload key|i result tok| |f b key|v f key| ];
    simpl.
  - destruct (find (fun c => computers.pc_id c =? pc_id data)
                (computers_rows w)) as [r|] eqn:Hf.
    + rewrite (register_existing _ _ _ _ Hf). right. left. simpl.
      do 2 eexists. split; [|reflexivity]. intro c. repeat split.
    + rewrite (register_new _ _ _ Hf). right. right. simpl.
      exists data. split; [now apply find_pc_none|reflexivity].
  - destruct (find (fun c => computers.pc_id c =? p) (computers_rows w))
      as [r|] eqn:Hf.
    + destruct (header_ne tok (computers.token r)) eqn:Ht.
      * apply header_ne_true in Ht. rewrite (poll_forbidden _ _ _ _ _ Hf Ht).
        now left.
      * apply header_ne_false in Ht. subst tok.
        rewrite (poll_ok _ _ _ _ Hf). right. left. simpl.
        do 2 eexists. split; [|reflexivity]. intro c. repeat split.
    + rewrite (poll_not_found _ _ _ _ Hf). now left.
  - left. unfold create_command, bind, fetch_one_computers.
    destruct (header_ne _ _); [reflexivity|].
    destruct (find _ (computers_rows w)); reflexivity.
  - left. unfold report_result, bind, fetch_one_commands, fetch_one_computers.
    destruct (find _ (commands_rows w)) as [c|]; [|reflexivity].
    destruct (find _ (computers_rows w)) as [pc|]; [|reflexivity].
    destruct (header_ne _ _); reflexivity.
  - apply or_introl, Hpers, version_persistent.
  - apply or_introl, Hpers, upload_binary_persistent.
  - apply or_introl, Hpers, set_version_persistent.
  - now left.
Qed.

Lemma find_app_none {A} (f : A -> bool) (l l' : list A) :
  find f l = None -> find f (l ++ l') = find f l'.
Proof.
  induction l as [|x l IH]; simpl; [reflexivity|].
  destruct (f x); [discriminate|exact IH].
Qed.

Lemma update_where_none {R} (cond : R -> bool) (values : R -> R) rows :
  find cond rows = None -> update_where cond values rows = rows.
Proof.
  induction rows as [|x rows IH]; simpl; [reflexivity|].
  destruct (cond x); [discriminate|]. intro H. now rewrite IH.
Qed.

Lemma find_id_update_same (i : Z) (st : string) (rows : list commands.row) c :
  find (fun c => (commands.id c =? i)%Z) rows = Some c ->
  find (fun c => (commands.id c =? i)%Z)
    (update_where (fun c => (commands.id c =? i)%Z) (status_values st) rows)
  = Some (status_values st c).
Proof.
  induction rows as [|x rows IH]; simpl; [discriminate|].
  destruct (commands.id x =? i)%Z eqn:Ex; simpl; rewrite Ex.
  - now intros [= ->].
  - exact IH.
Qed.

(** The record [register] leaves for the [pc_id] it was called with. *)
Lemma register_agent (clk : clock) (data : RegisterIn) (w : world fs) :
  exists r,
    agent_of (snd (register clk data w)) (pc_id data) = Some r /\
    computers.token r = token data.
Proof.
  unfold agent_of.
  destruct (find (fun c => computers.pc_id c =? pc_id data) (computers_rows w))
    as [old|] eqn:Hf.
  - rewrite (register_existing _ _ _ _ Hf). simpl.
    rewrite update_where_find_pc by reflexivity. rewrite Hf. simpl.
    destruct (find_pc_some _ _ _ Hf) as [_ ->]. rewrite String.eqb_refl.
    eexists. split; reflexivity.
  - rewrite (register_new _ _ _ Hf). simpl.
    rewrite (find_app_none _ _ _ Hf). simpl. rewrite String.eqb_refl.
    eexists. split; reflexivity.
Qed.

(** [rstrip("/")] takes a run of slashes off the end and nothing else. *)
Lemma rstrip_slash_split (s : string) :
  exists n,
    s = (rstrip_slash s ++ slashes n)%string /\
    ends_with_slash (rstrip_slash s) = false.
Proof.
  induction s as [|c s (n & Hs & He)]; [now exists 0%nat|].
  simpl. destruct (rstrip_slash s) as [|d r] eqn:Hr.
  - simpl in Hs. destruct (c =? "/")%char eqn:Ec.
    + apply Ascii.eqb_eq in Ec. subst c. exists (S n). simpl.
      now rewrite <- Hs.
    + exists n. simpl. rewrite Ec. now rewrite <- Hs.
  - exists n. split; [now rewrite Hs at 1|]. exact He.
Qed.

End Shapes.

Section MoreShapes.
Context {fs : Type} {FS : FileSystem fs} {JM : JsonModule}.

Lemma filter_update_where_other {R} (keep cond : R -> bool)
  (values : R -> R) (rows : list R) :
  (forall r, cond r = true -> keep r = false /\ keep (values r) = false) ->
  filter keep (update_where cond values rows) = filter keep rows.
Proof.
  intro H. induction rows as [|x rows IH]; simpl; [reflexivity|].
  destruct (cond x) eqn:Ec.
  - destruct (H x Ec) as [-> ->]. exact IH.
  - destruct (keep x); now rewrite IH.
Qed.

Lemma update_where_idem {R} (cond : R -> bool) (values : R -> R) rows :
  (forall r, cond (values r) = cond r) ->
  (forall r, values (values r) = values r) ->
  update_where cond values (update_where cond values rows)
  = update_where cond values rows.
Proof.
  intros Hc Hv. unfold update_where. rewrite map_map. apply map_ext.
  intro r. destruct (cond r) eqn:E; [now rewrite Hc, E, Hv|now rewrite E].
Qed.

(** The response of a poll that succeeds. *)
Lemma poll_returns (clk : clock) (p : string) tok (w w' : world fs) out :
  poll clk p tok w = (Return out, w') ->
  out = JDict [("commands",
                JList (map cmd_entry (pending_of p (commands_rows w))))].
Proof.
  destruct (find (fun c => computers.pc_id c =? p) (computers_rows w))
    as [r|] eqn:Hf.
  - destruct (header_ne tok (computers.token r)) eqn:Ht.
    + apply header_ne_true in Ht. rewrite (poll_forbidden _ _ _ _ _ Hf Ht).
      discriminate.
    + apply header_ne_false in Ht. subst tok. rewrite (poll_ok _ _ _ _ Hf).
      now intros [= <- _].
  - rewrite (poll_not_found _ _ _ _ Hf). discriminate.
Qed.

Lemma step_settled (e : os_env) (clk : clock) (req : request) (w : world fs)
  (i : Z) :
  settled i (commands_rows w) -> settled i (commands_rows (step e clk req w)).
Proof.
  intros [Hin Hst].
  destruct (step_commands_shape e clk req w)
    as [->|[(cond & st & Hsd & ->)|(p & t & payload & _ & ->)]].
  - now split.
  - split; [now rewrite update_where_map by reflexivity|].
    intros c' Hc' Hid. unfold update_where in Hc'. apply in_map_iff in Hc'.
    destruct Hc' as (c & <- & Hc). destruct (cond c).
    + simpl. destruct Hsd as [-> | ->]; discriminate.
    + now apply Hst.
  - split; [rewrite map_app; apply in_or_app; now left|].
    intros c Hc Hid. apply in_app_or in Hc. destruct Hc as [Hc|[<-|[]]].
    + now apply Hst.
    + simpl in Hid. subst i. now apply next_rowid_fresh in Hin.
Qed.

Lemma serve_settled (e : os_env) (reqs : list (clock * request)) (i : Z) :
  forall w : world fs,
    settled i (commands_rows w) -> settled i (commands_rows (serve e reqs w)).
Proof.
  induction reqs as [|[clk req] reqs IH]; intros w Hs; [exact Hs|].
  simpl. apply IH. now apply step_settled.
Qed.

Lemma fold_max_first_ids (n : nat) :
  fold_right Z.max 0 (first_ids n) = Z.of_nat n.
Proof.
  assert (Hle : forall l m, 0 <= m -> (forall x, In x l -> x <= m) ->
                            fold_right Z.max 0 l <= m).
  { induction l as [|x l IH]; intros m Hm Hall; cbn [fold_right]; [exact Hm|].
    specialize (IH m Hm (fun y Hy => Hall y (or_intror Hy))).
    specialize (Hall x (or_introl eq_refl)). lia. }
  destruct n as [|n]; [reflexivity|].
  apply Z.le_antisymm.
  - apply Hle; [lia|]. intros x Hx. unfold first_ids in Hx.
    apply in_map_iff in Hx. destruct Hx as (k & <- & Hk).
    apply in_seq in Hk. lia.
  - assert (Hin : In (Z.of_nat (S n)) (first_ids (S n))).
    { unfold first_ids. apply in_map, in_seq. lia. }
    apply next_rowid_above in Hin. unfold next_rowid in Hin. lia.
Qed.

Lemma first_ids_next (n : nat) :
  first_ids n ++ [next_rowid (first_ids n)] = first_ids (S n).
Proof.
  unfold next_rowid. rewrite fold_max_first_ids.
  unfold first_ids. rewrite seq_S, map_app. cbn [map]. do 2 f_equal. lia.
Qed.

Lemma first_ids_length (n : nat) : List.length (first_ids n) = n.
Proof. unfold first_ids. now rewrite length_map, length_seq. Qed.

Lemma computer_identity_id (values : computers.row -> computers.row) :
  (forall c, computer_identity (values c) = computer_identity c) ->
  forall c, computers.id (values c) = computers.id c /\
            computers.pc_id (values c) = computers.pc_id c /\
            computers.blocked (values c) = computers.blocked c.
Proof.
  intros H c. specialize (H c). unfold computer_identity in H.
  injection H as H1 H2 H3 H4. auto.
Qed.


End MoreShapes.

Section Extras.
Context {fs : Type} {FS : FileSystem fs} {JM : JsonModule}.

(** X1.  The base of the published url.  With [BASE_URL] set to a
    non-empty text it is that text without its trailing slashes, so it
    never ends in a slash (and is empty when the text is slashes only);
    with [BASE_URL] unset or empty it is [http://] and the host name. *)
Theorem get_base_url_cases (e : os_env) :
  match environ e "BASE_URL" with
  | Some (String c base) =>
      (exists n, String c base = (get_base_url e ++ slashes n)%string) /\
      ends_with_slash (get_base_url e) = false
  | Some EmptyString | None =>
      get_base_url e = ("http://" ++ gethostname e)%string
  end.
Proof.
  unfold get_base_url. destruct (environ e "BASE_URL") as [[|c base]|];
    try reflexivity.
  destruct (rstrip_slash_split (String c base)) as (n & Hs & He).
  split; [now exists n|exact He].
Qed.

(** X2.  Without the admin key (a wrong value or no header) the three
    admin requests are answered 403 "bad admin key" and change nothing:
    no command is queued, no file written, no version published. *)
Theorem admin_key_is_required
  (e : os_env) (clk : clock) (key : option string) (w : world fs) :
  key <> Some (ADMIN_KEY e) ->
  (forall p t payload,
      create_command e clk p t payload key w
        = (Raise (HTTPException 403 "bad admin key"), w)) /\
  (forall f b,
      upload_binary e f b key w
        = (Raise (HTTPException 403 "bad admin key"), w)) /\
  (forall v f,
      set_version e v f key w
        = (Raise (HTTPException 403 "bad admin key"), w)).
Proof.
  intro Hk. apply header_ne_true in Hk.
  unfold create_command, upload_binary, set_version. rewrite Hk. auto.
Qed.

(** X3.  Requests for something that is not in the tables are answered
    404 and change nothing: a poll for a [pc_id] without a record
    (whatever token it carries: the record is looked up before the token
    is compared), a command for such a [pc_id] (with the admin key), a
    report for a command id that no row has, the id being an integer
    SQLite can bind (one outside 64 bits fails in the driver instead). *)
Theorem unknown_targets_are_not_found
  (e : os_env) (clk : clock) (w : world fs) :
  (forall p tok,
      ~ In p (map computers.pc_id (computers_rows w)) ->
      poll clk p tok w = (Raise (HTTPException 404 "pc not found"), w)) /\
  (forall p t payload,
      ~ In p (map computers.pc_id (computers_rows w)) ->
      create_command e clk p t payload (Some (ADMIN_KEY e)) w
        = (Raise (HTTPException 404 "pc not found"), w)) /\
  (forall i result tok,
      sqlite_integer i ->
      ~ In i (map commands.id (commands_rows w)) ->
      report_result i result tok w
        = (Raise (HTTPException 404 "command not found"), w)).
Proof.
  split; [|split].
  - intros p tok Hn. apply poll_not_found. now apply find_pc_none.
  - intros p t payload Hn. apply create_command_not_found.
    now apply find_pc_none.
  - intros i result tok _ Hn. apply report_result_not_found.
    destruct (find _ (commands_rows w)) as [c|] eqn:Hf; [|reflexivity].
    apply find_some in Hf. destruct Hf as [Hin Hid].
    apply Z.eqb_eq in Hid. subst i. exfalso. apply Hn. now apply in_map.
Qed.

(** X4.  Registration sets the token, in any state and whether the agent
    is new or known: right after [register], a poll of that [pc_id]
    succeeds with the token just supplied and is answered 403 with any
    other, the token the agent had before included. *)
Theorem register_sets_the_poll_token
  (clk clk' : clock) (data : RegisterIn) (tok : option string)
  (w : world fs) :
  (tok = Some (token data) ->
   exists cmds w',
     poll clk' (pc_id data) tok (snd (register clk data w))
       = (Return (JDict [("commands", JList cmds)]), w')) /\
  (tok <> Some (token data) ->
   poll clk' (pc_id data) tok (snd (register clk data w))
     = (Raise (HTTPException 403 "bad token"), snd (register clk data w))).
Proof.
  destruct (register_agent clk data w) as (r & Hr & Htok).
  unfold agent_of in Hr. split.
  - intros ->. rewrite <- Htok. rewrite (poll_ok _ _ _ _ Hr). eauto.
  - intro Hne. apply (poll_forbidden _ _ _ _ _ Hr). now rewrite Htok.
Qed.

(** X5.  [GET /version] only reads: whatever it returns, an error
    included, the state is as before; when [version.json] does not exist
    the answer is the descriptor [{"version": "0.0.0", "url": ""}]. *)
Theorem version_only_reads (e : os_env) (w : world fs) :
  snd (version e w) = w /\
  (exists_ (files w) (joinpath (DOWNLOAD_FOLDER e) "version.json") = false ->
   fst (version e w) = Return (JDict (descriptor "0.0.0" ""))).
Proof.
  unfold version, bind, path_exists, path_read_text.
  destruct (exists_ _ _); simpl.
  - split; [|discriminate].
    destruct (read_text _ _); [|reflexivity]. destruct (loads _); reflexivity.
  - auto.
Qed.

(** X6.  With the admin key and the file in place, [set_version]
    replaces whatever descriptor was published before: it succeeds, the
    next [GET /version] returns the new version and url and nothing of
    the old descriptor, and both tables and stdout are untouched. *)
Theorem set_version_replaces_the_descriptor
  (e : os_env) (v f : string) (w : world fs) :
  exists_ (files w) (joinpath (DOWNLOAD_FOLDER e) f) = true ->
  exists w',
    set_version e v f (Some (ADMIN_KEY e)) w
      = (Return (JDict [("ok", JBool true);
                        ("version",
                         JDict (descriptor v
                                  (get_base_url e ++ "/downloads/" ++ f)))]),
         w') /\
    version e w'
      = (Return (JDict (descriptor v (get_base_url e ++ "/downloads/" ++ f))),
         w') /\
    persistent w' = persistent w /\
    stdout w' = stdout w.
Proof.
  intro Hex.
  assert (Hkey : header_ne (Some (ADMIN_KEY e)) (ADMIN_KEY e) = false)
    by now apply header_ne_false.
  unfold set_version, version, bind, path_exists, path_write_text,
    path_read_text, ret.
  rewrite Hkey, Hex. simpl. eexists. split; [reflexivity|].
  simpl. rewrite exists_write_text. simpl. rewrite read_write_text.
  rewrite loads_dumps_descriptor. auto.
Qed.

(** X7.  Each request keeps to its side of the state: only
    [upload_binary] and [set_version] change the files, only the four
    database requests change the tables, and only [report_result] prints. *)
Theorem requests_keep_to_their_side
  (e : os_env) (clk : clock) (req : request) (w : world fs) :
  (writes_files req = false -> files (step e clk req w) = files w) /\
  (writes_tables req = false ->
   persistent (step e clk req w) = persistent w) /\
  (~ is_report_result req -> stdout (step e clk req w) = stdout w).
Proof.
  unfold step.
  destruct req as [data|p tok|p t payload key|i result tok| |f b key|v f key| ];
    simpl; repeat split; intro H;
    try discriminate H; try (exfalso; apply H; exact I); clear H;
    unfold register, poll, create_command, report_result, version,
      upload_binary, set_version, health, bind, fetch_one_computers,
      fetch_one_commands, fetch_all_commands, execute_update_computers,
      execute_update_commands, execute_insert_computers,
      execute_insert_commands, path_exists, path_read_text,
      path_write_bytes, path_write_text, print, ret, raise, persistent;
    repeat match goal with
      | |- context [poll_loop ?r ?l ?w0] => rewrite (poll_loop_run r l w0)
      | |- context [find ?f ?l] => destruct (find f l); simpl
      | |- context [header_ne ?a ?b] => destruct (header_ne a b); simpl
      | |- context [existsb ?f ?l] => destruct (existsb f l); simpl
      | |- context [exists_ ?a ?b] => destruct (exists_ a b); simpl
      | |- context [read_text ?a ?b] => destruct (read_text a b); simpl
      | |- context [loads ?a] => destruct (loads a); simpl
      end;
    reflexivity.
Qed.

(** X8.  In a reachable state a poll of [A], whatever its outcome, leaves
    every other agent alone: the record of [B] and all the commands of
    [B], pending ones included, are what they were. *)
Theorem poll_leaves_other_agents
  (e : os_env) (clk : clock) (A B : string) (tok : option string)
  (w : world fs) :
  reachable e w ->
  B <> A ->
  agent_of (snd (poll clk A tok w)) B = agent_of w B /\
  filter (fun c => commands.pc_id c =? B)
    (commands_rows (snd (poll clk A tok w)))
  = filter (fun c => commands.pc_id c =? B) (commands_rows w).
Proof.
  intros Hr Hne. apply reachable_store_ok in Hr. destruct Hr as [_ Hids _ _].
  destruct (find (fun c => computers.pc_id c =? A) (computers_rows w))
    as [r|] eqn:Hf.
  - destruct (header_ne tok (computers.token r)) eqn:Ht.
    + apply header_ne_true in Ht. rewrite (poll_forbidden _ _ _ _ _ Hf Ht).
      auto.
    + apply header_ne_false in Ht. subst tok. rewrite (poll_ok _ _ _ _ Hf).
      unfold agent_of. cbn [snd computers_rows commands_rows]. split.
      * rewrite update_where_find_pc by reflexivity.
        destruct (find (fun c => computers.pc_id c =? B) (computers_rows w))
          as [rb|] eqn:Hb; [|reflexivity].
        simpl. destruct (find_pc_some _ _ _ Hb) as [_ ->].
        apply String.eqb_neq in Hne. now rewrite Hne.
      * rewrite (delivered_is_pending _ _ Hids).
        apply filter_update_where_other. intros c Hc.
        unfold is_pending_of in Hc. apply andb_true_iff in Hc.
        destruct Hc as [Hc _]. apply String.eqb_eq in Hc. simpl.
        rewrite Hc. apply not_eq_sym, String.eqb_neq in Hne. auto.
  - rewrite (poll_not_found _ _ _ _ Hf). auto.
Qed.

(** X9.  With requests served one at a time, a command that is no longer
    pending is not delivered again: if some row has id [i] and no row of
    that id is pending, then after any requests whatever, each run to
    completion before the next, no poll of any agent returns an entry
    with id [i].  (A poll that had already selected the command when it
    was settled is not one of these.) *)
Theorem settled_command_is_not_delivered_again
  (e : os_env) (reqs : list (clock * request)) (clk : clock) (p : string)
  (tok : option string) (i : Z) (w w' : world fs) (out : json) :
  In i (map commands.id (commands_rows w)) ->
  (forall c, In c (commands_rows w) -> commands.id c = i ->
             commands.status c <> "pending") ->
  poll clk p tok (serve e reqs w) = (Return out, w') ->
  exists cmds,
    out = JDict [("commands", JList cmds)] /\
    forall T P, ~ In (entry i T P) cmds.
Proof.
  intros Hin Hst Hpoll.
  destruct (serve_settled e reqs i w (conj Hin Hst)) as [_ Hst'].
  apply poll_returns in Hpoll. eexists. split; [exact Hpoll|].
  intros T P Hentry. apply in_map_iff in Hentry.
  destruct Hentry as (c & Hc & Hpend). unfold pending_of in Hpend.
  apply filter_In in Hpend. destruct Hpend as [Hcin Hcond].
  unfold is_pending_of in Hcond. apply andb_true_iff in Hcond.
  destruct Hcond as [_ Hs]. apply String.eqb_eq in Hs.
  unfold cmd_entry, entry in Hc. injection Hc as Hid _ _.
  exact (Hst' c Hcin Hid Hs).
Qed.

(** X10.  Ids are handed out in order and never reused: in a reachable
    state the ids of the commands are 1, 2, ..., n in table order, and so
    are the ids of the agent records; the next command gets id n + 1. *)
Theorem ids_count_up (e : os_env) (w : world fs) :
  reachable e w ->
  map commands.id (commands_rows w)
    = first_ids (List.length (commands_rows w)) /\
  map computers.id (computers_rows w)
    = first_ids (List.length (computers_rows w)) /\
  next_rowid (map commands.id (commands_rows w))
    = Z.of_nat (S (List.length (commands_rows w))).
Proof.
  intro Hr.
  assert (H : map commands.id (commands_rows w)
                = first_ids (List.length (commands_rows w)) /\
              map computers.id (computers_rows w)
                = first_ids (List.length (computers_rows w))).
  { induction Hr as [disk|w clk req Hr [IHk IHc]]; [split; reflexivity|].
    split.
    - destruct (step_commands_shape e clk req w)
        as [->|[(cond & st & _ & ->)|(p & t & payload & _ & ->)]].
      + exact IHk.
      + rewrite update_where_map by reflexivity.
        now rewrite update_where_length.
      + rewrite map_app, length_app. cbn [map List.length].
        rewrite Nat.add_1_r. unfold new_command. cbn [commands.id].
        rewrite IHk. apply first_ids_next.
    - destruct (step_computers_shape e clk req w)
        as [->|[(cond & values & Hv & ->)|(data & _ & ->)]].
      + exact IHc.
      + rewrite update_where_map, update_where_length; [exact IHc|].
        intro c. apply (computer_identity_id values (fun c => proj1 (Hv c))).
      + rewrite map_app, length_app. cbn [map List.length].
        rewrite Nat.add_1_r. unfold new_computer. cbn [computers.id].
        rewrite IHc. apply first_ids_next. }
  destruct H as [Hk Hc]. split; [exact Hk|]. split; [exact Hc|].
  rewrite Hk. unfold next_rowid. rewrite fold_max_first_ids. lia.
Qed.

(** X11.  A [register] that runs with no other request between its
    lookup and its write succeeds in any state, and repeating it changes
    nothing more: the first call returns "registered" or "updated", and
    the same call again at the same time returns "updated" and leaves the
    state exactly as the first call left it. *)
Theorem register_succeeds_and_repeats
  (clk : clock) (data : RegisterIn) (w : world fs) :
  exists out w1,
    register clk data w = (Return out, w1) /\
    (out = JDict [("status", JStr "registered")] \/
     out = JDict [("status", JStr "updated")]) /\
    register clk data w1 = (Return (JDict [("status", JStr "updated")]), w1).
Proof.
  destruct (find (fun c => computers.pc_id c =? pc_id data) (computers_rows w))
    as [old|] eqn:Hf.
  - rewrite (register_existing _ _ _ _ Hf). do 2 eexists.
    split; [reflexivity|]. split; [now right|].
    erewrite register_existing.
    + cbn [computers_rows commands_rows stdout files].
      rewrite update_where_idem; reflexivity.
    + cbn [computers_rows]. rewrite update_where_find_pc by reflexivity.
      rewrite Hf. reflexivity.
  - rewrite (register_new _ _ _ Hf). do 2 eexists.
    split; [reflexivity|]. split; [now left|].
    erewrite register_existing.
    + cbn [computers_rows commands_rows stdout files].
      unfold update_where. rewrite map_app.
      fold (update_where (fun c => computers.pc_id c =? pc_id data)
              (register_values data (utcnow clk)) (computers_rows w)).
      rewrite (update_where_none _ _ _ Hf). simpl.
      now rewrite String.eqb_refl.
    + cbn [computers_rows]. rewrite (find_app_none _ _ _ Hf). simpl.
      now rewrite String.eqb_refl.
Qed.

(** X12.  No handler ever marks an agent offline or blocked: in every
    reachable state each agent record has status online, [blocked] false
    and a [last_seen] time. *)
Theorem agents_stay_online (e : os_env) (w : world fs) :
  reachable e w ->
  Forall (fun c => computers.status c = "online" /\
                   computers.blocked c = false /\
                   computers.last_seen c <> None)
    (computers_rows w).
Proof.
  induction 1 as [disk|w clk req Hr IH]; [constructor|].
  destruct (step_computers_shape e clk req w)
    as [->|[(cond & values & Hv & ->)|(data & _ & ->)]].
  - exact IH.
  - unfold update_where. apply Forall_map.
    eapply Forall_impl; [|exact IH]. intros c (Hs & Hb & Hl).
    destruct (cond c); [|auto].
    destruct (Hv c) as (Hid & Hon & Hseen).
    destruct (computer_identity_id values (fun c => proj1 (Hv c)) c)
      as (_ & _ & Hbl).
    rewrite Hon, Hbl, Hseen. repeat split; auto. discriminate.
  - apply Forall_app. split; [exact IH|]. repeat constructor. discriminate.
Qed.

(** X13.  Nothing is ever deleted or rewritten: after any requests, from
    any state, the agent records that were there are still there in the
    same order with their id, [pc_id], [created_at] and [blocked], and
    the commands that were there are still there in the same order with
    everything but their status; new rows only follow them. *)
Theorem rows_are_never_deleted
  (e : os_env) (reqs : list (clock * request)) (w : world fs) :
  exists new_agents new_commands,
    map computer_identity (computers_rows (serve e reqs w))
      = map computer_identity (computers_rows w) ++ new_agents /\
    map command_content (commands_rows (serve e reqs w))
      = map command_content (commands_rows w) ++ new_commands.
Proof.
  revert w. induction reqs as [|[clk req] reqs IH]; intro w.
  - exists [], []. simpl. now rewrite !app_nil_r.
  - simpl. destruct (IH (step e clk req w)) as (na & nc & Ha & Hc).
    rewrite Ha, Hc.
    assert (Hstepa : exists a,
               map computer_identity (computers_rows (step e clk req w))
               = map computer_identity (computers_rows w) ++ a).
    { destruct (step_computers_shape e clk req w)
        as [->|[(cond & values & Hv & ->)|(data & _ & ->)]].
      - exists []. now rewrite app_nil_r.
      - exists []. rewrite app_nil_r. apply update_where_map.
        intro c. apply Hv.
      - rewrite map_app. eauto. }
    assert (Hstepc : exists c,
               map command_content (commands_rows (step e clk req w))
               = map command_content (commands_rows w) ++ c).
    { destruct (step_commands_shape e clk req w)
        as [->|[(cond & st & _ & ->)|(p & t & payload & _ & ->)]].
      - exists []. now rewrite app_nil_r.
      - exists []. rewrite app_nil_r. now apply update_where_map.
      - rewrite map_app. eauto. }
    destruct Hstepa as (a & ->). destruct Hstepc as (c & ->).
    exists (a ++ na), (c ++ nc). now rewrite !app_assoc.
Qed.


(** X15.  A report touches one command only: whatever its outcome, the
    agent records and the files are as before, the rows of other command
    ids are as before, and no row is added or removed. *)
Theorem report_result_touches_one_command
  (i : Z) (result : dict) (tok : option string) (w : world fs) :
  computers_rows (snd (report_result i result tok w)) = computers_rows w /\
  files (snd (report_result i result tok w)) = files w /\
  filter (fun c => negb (commands.id c =? i)%Z)
    (commands_rows (snd (report_result i result tok w)))
  = filter (fun c => negb (commands.id c =? i)%Z) (commands_rows w) /\
  List.length (commands_rows (snd (report_result i result tok w)))
  = List.length (commands_rows w).
Proof.
  unfold report_result, bind, fetch_one_commands, fetch_one_computers.
  destruct (find _ (commands_rows w)) as [c|]; [|auto].
  destruct (find _ (computers_rows w)) as [pc|]; [|auto].
  destruct (header_ne _ _); [auto|]. simpl.
  split; [reflexivity|]. split; [reflexivity|].
  split; [|apply update_where_length].
  apply filter_update_where_other. intros r Hr. simpl. now rewrite Hr.
Qed.

(** X16.  One record per agent: in every reachable state no two agent
    records share a [pc_id] and no two commands share an id, however
    often an agent registers again. *)
Theorem one_record_per_agent (e : os_env) (w : world fs) :
  reachable e w ->
  NoDup (map computers.pc_id (computers_rows w)) /\
  NoDup (map commands.id (commands_rows w)) /\
  forall p, (count_pc p (computers_rows w) <= 1)%nat.
Proof.
  intro Hr. apply reachable_store_ok in Hr. destruct Hr as [Hpc Hid _ _].
  split; [exact Hpc|]. split; [exact Hid|]. intro p.
  rewrite count_pc_keys.
  destruct (in_dec string_dec p (map computers.pc_id (computers_rows w)))
    as [Hin|Hout].
  - now rewrite (count_unique _ _ Hpc Hin).
  - rewrite (count_absent _ _ Hout). simpl. lia.
Qed.

End Extras.

(** ** Requests that interleave: what still holds, and what does not *)

Section Interleaved.
Context {fs : Type} {FS : FileSystem fs} {JM : JsonModule}.

Lemma nth_error_middle {A} (pre post : list A) (x : A) :
  nth_error (pre ++ x :: post) (List.length pre) = Some x.
Proof. induction pre as [|y pre IH]; simpl; auto. Qed.

Lemma set_at_middle {A} (pre post : list A) (x y : A) :
  set_at (List.length pre) y (pre ++ x :: post) = pre ++ y :: post.
Proof.
  unfold set_at. induction pre as [|z pre IH]; simpl; [reflexivity|].
  simpl in IH. now rewrite IH.
Qed.

Lemma drop_at_middle {A} (pre post : list A) (x : A) :
  drop_at (List.length pre) (pre ++ x :: post) = pre ++ post.
Proof.
  unfold drop_at. induction pre as [|z pre IH]; simpl; [reflexivity|].
  simpl in IH. now rewrite IH.
Qed.

Lemma schedule_resume (e : os_env) (w : world fs) (pre post : list point)
  (pt : point) (rs : list (outcome json)) :
  schedule e (Resume (List.length pre))
    {| shared := w; pool := pre ++ pt :: post; responses := rs |}
  = match advance e pt w with
    | (Return (inl pt'), w') =>
        {| shared := w'; pool := pre ++ pt' :: post; responses := rs |}
    | (Return (inr doc), w') =>
        {| shared := w'; pool := pre ++ post;
           responses := rs ++ [Return doc] |}
    | (Raise err, w') =>
        {| shared := w'; pool := pre ++ post;
           responses := rs ++ [Raise err] |}
    end.
Proof.
  unfold schedule. cbn [pool shared responses]. rewrite nth_error_middle.
  destruct (advance e pt w) as [[[pt'|doc]|err] w'];
    rewrite ?set_at_middle, ?drop_at_middle; reflexivity.
Qed.

Lemma schedule_all_app (e : os_env) (evs evs' : list event) (s : server) :
  schedule_all e (evs ++ evs') s = schedule_all e evs' (schedule_all e evs s).
Proof. revert s. induction evs as [|ev evs IH]; intro s; simpl; auto. Qed.

(** A poll in its loop, resumed until it returns. *)
Lemma schedule_marks (e : os_env) (pre post : list point)
  (rows : list commands.row) :
  forall (cmd_list : list json) (w : world fs) (rs : list (outcome json)),
    schedule_all e (repeat (Resume (List.length pre)) (S (List.length rows)))
      {| shared := w; pool := pre ++ PollMark rows cmd_list :: post;
         responses := rs |}
    = {| shared := snd (poll_loop rows cmd_list w);
         pool := pre ++ post;
         responses :=
           rs ++ [Return (JDict [("commands",
                                  JList (cmd_list ++ map cmd_entry rows))])] |}.
Proof.
  induction rows as [|r rows IH]; intros cmd_list w rs.
  - cbn [List.length repeat schedule_all]. rewrite schedule_resume.
    cbn. now rewrite app_nil_r.
  - cbn [List.length repeat schedule_all] in *. rewrite schedule_resume.
    cbn [advance]. unfold bind, execute_update_commands, ret. cbn [fst snd].
    rewrite IH. cbn [poll_loop]. unfold bind, execute_update_commands.
    cbn [map]. now rewrite <- app_assoc.
Qed.

(** A poll with the right token, resumed up to its selection. *)
Lemma schedule_select (e : os_env) (clk : clock) (A : string)
  (pre post : list point) (w : world fs) (row : computers.row)
  (rs : list (outcome json)) :
  agent_of w A = Some row ->
  schedule_all e (repeat (Resume (List.length pre)) 3)
    {| shared := w;
       pool := pre ++ Start clk (Poll A (Some (computers.token row))) :: post;
       responses := rs |}
  = {| shared :=
         {| computers_rows :=
              update_where (fun c => computers.pc_id c =? A)
                (seen_values (utcnow clk)) (computers_rows w);
            commands_rows := commands_rows w;
            stdout := stdout w;
            files := files w |};
       pool := pre ++ PollMark (pending_of A (commands_rows w)) [] :: post;
       responses := rs |}.
Proof.
  intro Hrow. unfold agent_of in Hrow.
  assert (Hh : header_ne (Some (computers.token row)) (computers.token row)
               = false) by now apply header_ne_false.
  cbn [repeat schedule_all]. rewrite schedule_resume.
  cbn [advance]. unfold bind, fetch_one_computers. rewrite Hrow, Hh.
  unfold ret. rewrite schedule_resume. cbn [advance].
  unfold bind, execute_update_computers, ret. rewrite schedule_resume.
  reflexivity.
Qed.

Lemma find_id_unique (rows : list commands.row) (c : commands.row) :
  NoDup (map commands.id rows) -> In c rows ->
  find (fun x => (commands.id x =? commands.id c)%Z) rows = Some c.
Proof.
  induction rows as [|x rows IH]; simpl; [tauto|].
  intros Hnd Hin. inversion Hnd as [|? ? Hx Hnd']; subst.
  destruct (commands.id x =? commands.id c)%Z eqn:E.
  - apply Z.eqb_eq in E. destruct Hin as [->|Hin]; [reflexivity|].
    exfalso. apply Hx. rewrite E. now apply in_map.
  - destruct Hin as [->|Hin]; [now rewrite Z.eqb_refl in E|].
    now apply IH.
Qed.

Lemma schedule_arrive (e : os_env) (clk : clock) (req : request)
  (w : world fs) (waiting : list point) (rs : list (outcome json)) :
  schedule e (Arrive clk req)
    {| shared := w; pool := waiting; responses := rs |}
  = {| shared := w; pool := waiting ++ [Start clk req]; responses := rs |}.
Proof. reflexivity. Qed.

Lemma schedule_resume0 (e : os_env) (w : world fs) (post : list point)
  (pt : point) (rs : list (outcome json)) :
  schedule e (Resume 0)
    {| shared := w; pool := pt :: post; responses := rs |}
  = match advance e pt w with
    | (Return (inl pt'), w') =>
        {| shared := w'; pool := pt' :: post; responses := rs |}
    | (Return (inr doc), w') =>
        {| shared := w'; pool := post; responses := rs ++ [Return doc] |}
    | (Raise err, w') =>
        {| shared := w'; pool := post; responses := rs ++ [Raise err] |}
    end.
Proof. exact (schedule_resume e w [] post pt rs). Qed.

Lemma schedule_resume1 (e : os_env) (w : world fs) (p0 : point)
  (post : list point) (pt : point) (rs : list (outcome json)) :
  schedule e (Resume 1)
    {| shared := w; pool := p0 :: pt :: post; responses := rs |}
  = match advance e pt w with
    | (Return (inl pt'), w') =>
        {| shared := w'; pool := p0 :: pt' :: post; responses := rs |}
    | (Return (inr doc), w') =>
        {| shared := w'; pool := p0 :: post;
           responses := rs ++ [Return doc] |}
    | (Raise err, w') =>
        {| shared := w'; pool := p0 :: post;
           responses := rs ++ [Raise err] |}
    end.
Proof. exact (schedule_resume e w [p0] post pt rs). Qed.

Lemma schedule_marks0 (e : os_env) (post : list point)
  (rows : list commands.row) (cmd_list : list json) (w : world fs)
  (rs : list (outcome json)) :
  schedule_all e (repeat (Resume 0) (S (List.length rows)))
    {| shared := w; pool := PollMark rows cmd_list :: post;
       responses := rs |}
  = {| shared := snd (poll_loop rows cmd_list w);
       pool := post;
       responses :=
         rs ++ [Return (JDict [("commands",
                                JList (cmd_list ++ map cmd_entry rows))])] |}.
Proof. exact (schedule_marks e [] post rows cmd_list w rs). Qed.

Lemma schedule_select0 (e : os_env) (clk : clock) (A : string)
  (post : list point) (w : world fs) (row : computers.row)
  (rs : list (outcome json)) :
  agent_of w A = Some row ->
  schedule_all e (repeat (Resume 0) 3)
    {| shared := w;
       pool := Start clk (Poll A (Some (computers.token row))) :: post;
       responses := rs |}
  = {| shared :=
         {| computers_rows :=
              update_where (fun c => computers.pc_id c =? A)
                (seen_values (utcnow clk)) (computers_rows w);
            commands_rows := commands_rows w;
            stdout := stdout w;
            files := files w |};
       pool := PollMark (pending_of A (commands_rows w)) [] :: post;
       responses := rs |}.
Proof. exact (schedule_select e clk A [] post w row rs). Qed.

Lemma schedule_select1 (e : os_env) (clk : clock) (A : string)
  (p0 : point) (post : list point) (w : world fs) (row : computers.row)
  (rs : list (outcome json)) :
  agent_of w A = Some row ->
  schedule_all e (repeat (Resume 1) 3)
    {| shared := w;
       pool := p0 :: Start clk (Poll A (Some (computers.token row))) :: post;
       responses := rs |}
  = {| shared :=
         {| computers_rows :=
              update_where (fun c => computers.pc_id c =? A)
                (seen_values (utcnow clk)) (computers_rows w);
            commands_rows := commands_rows w;
            stdout := stdout w;
            files := files w |};
       pool := p0 :: PollMark (pending_of A (commands_rows w)) [] :: post;
       responses := rs |}.
Proof. exact (schedule_select e clk A [p0] post w row rs). Qed.

Ltac resume0 :=
  rewrite schedule_resume0; cbn [advance];
  unfold bind, ret, raise, fetch_one_computers, fetch_one_commands,
    fetch_all_commands, execute_update_computers, execute_update_commands,
    execute_insert_commands, print;
  cbn [fst snd app].

(** X17.  The points of [advance] are the handler cut at its awaits: a
    request that arrives at a server at rest and is resumed until it
    finishes, with nothing in between, leaves the state and sends the
    response of the handler run in one piece. *)
Theorem request_alone_is_the_handler
  (e : os_env) (clk : clock) (req : request) (w : world fs) :
  schedule_all e
    (Arrive clk req :: repeat (Resume 0) (resumptions e req w)) (at_rest w)
  = {| shared := snd (handle e clk req w);
       pool := [];
       responses := [fst (handle e clk req w)] |}.
Proof.
  cbn [schedule_all schedule at_rest shared pool responses app].
  destruct req as [data|p tok|p t payload key|i result tok| |f b key|v f key| ];
    cbn [resumptions handle].
  - cbn [repeat schedule_all]. resume0.
    destruct (find (fun c => computers.pc_id c =? pc_id data)
                (computers_rows w)) as [r|] eqn:Hf.
    + resume0. now rewrite (register_existing _ _ _ _ Hf).
    + rewrite schedule_resume0. cbn [advance].
      unfold bind, ret, execute_insert_computers.
      rewrite (existsb_pc_false _ _ Hf). cbn [fst snd app].
      now rewrite (register_new _ _ _ Hf).
  - unfold agent_of.
    destruct (find (fun c => computers.pc_id c =? p) (computers_rows w))
      as [r|] eqn:Hf.
    + destruct (header_ne tok (computers.token r)) eqn:Ht.
      * cbn [repeat schedule_all]. resume0. rewrite Hf, Ht.
        apply header_ne_true in Ht.
        now rewrite (poll_forbidden _ _ _ _ _ Hf Ht).
      * apply header_ne_false in Ht. subst tok.
        change (4 + List.length (pending_of p (commands_rows w)))%nat
          with (3 + S (List.length (pending_of p (commands_rows w))))%nat.
        rewrite repeat_app, schedule_all_app.
        rewrite (schedule_select0 _ _ _ _ _ _ _ Hf), schedule_marks0.
        rewrite (poll_ok _ _ _ _ Hf). cbn [fst snd app].
        now rewrite poll_loop_run.
    + cbn [repeat schedule_all]. resume0. rewrite Hf.
      now rewrite (poll_not_found _ _ _ _ Hf).
  - destruct (header_ne key (ADMIN_KEY e)) eqn:Hk.
    + cbn [repeat schedule_all]. rewrite schedule_resume0. cbn [advance].
      rewrite Hk. unfold raise. cbn [app]. apply header_ne_true in Hk.
      now rewrite (create_command_forbidden _ _ _ _ _ _ _ Hk).
    + apply header_ne_false in Hk. subst key.
      assert (Hh : header_ne (Some (ADMIN_KEY e)) (ADMIN_KEY e) = false)
        by now apply header_ne_false.
      unfold agent_of.
      destruct (find (fun c => computers.pc_id c =? p) (computers_rows w))
        as [r|] eqn:Hf.
      * cbn [repeat schedule_all]. rewrite schedule_resume0. cbn [advance].
        rewrite Hh. unfold bind, fetch_one_computers. rewrite Hf.
        unfold ret. resume0.
        now rewrite (create_command_ok _ _ _ _ _ _ _ Hf).
      * cbn [repeat schedule_all]. rewrite schedule_resume0. cbn [advance].
        rewrite Hh. unfold bind, fetch_one_computers. rewrite Hf.
        unfold raise. cbn [app].
        now rewrite (create_command_not_found _ _ _ _ _ _ Hf).
  - unfold command_of, agent_of.
    destruct (find (fun c => (commands.id c =? i)%Z) (commands_rows w))
      as [c|] eqn:Hc.
    + destruct (find (fun r => computers.pc_id r =? commands.pc_id c)
                  (computers_rows w)) as [pc|] eqn:Hp.
      * destruct (header_ne tok (computers.token pc)) eqn:Ht.
        -- cbn [repeat schedule_all]. resume0. rewrite Hc. resume0.
           rewrite Hp, Ht. apply header_ne_true in Ht.
           now rewrite (report_result_forbidden _ _ _ _ _ _ Hc Hp Ht).
        -- cbn [repeat schedule_all]. resume0. rewrite Hc. resume0.
           rewrite Hp, Ht. resume0. resume0.
           apply header_ne_false in Ht. subst tok.
           now rewrite (report_result_ok _ _ _ _ _ Hc Hp).
      * cbn [repeat schedule_all]. resume0. rewrite Hc. resume0. rewrite Hp.
        unfold report_result, bind, fetch_one_commands, fetch_one_computers.
        now rewrite Hc, Hp.
    + cbn [repeat schedule_all]. resume0. rewrite Hc.
      now rewrite (report_result_not_found _ _ _ _ Hc).
  - cbn [repeat schedule_all]. rewrite schedule_resume0. cbn [advance].
    unfold bind at 1. destruct (version e w) as [[doc|err] w']; reflexivity.
  - cbn [repeat schedule_all]. rewrite schedule_resume0. cbn [advance].
    unfold bind at 1.
    destruct (upload_binary e f b key w) as [[doc|err] w']; reflexivity.
  - cbn [repeat schedule_all]. rewrite schedule_resume0. cbn [advance].
    unfold bind at 1.
    destruct (set_version e v f key w) as [[doc|err] w']; reflexivity.
  - cbn [repeat schedule_all]. rewrite schedule_resume0. reflexivity.
Qed.

Lemma advance_commands_shape (e : os_env) (pt : point) (w : world fs) :
  commands_rows (snd (advance e pt w)) = commands_rows w \/
  (exists cond st,
      (st = "sent" \/ st = "done") /\
      commands_rows (snd (advance e pt w))
        = update_where cond (status_values st) (commands_rows w)) \/
  (exists c,
      commands.status c = "pending" /\
      commands_rows (snd (advance e pt w)) = commands_rows w ++ [c]).
Proof.
  assert (Hkeep : forall (h : handler fs json),
             persistent (snd (h w)) = persistent w ->
             commands_rows (snd ((doc <- h ;; ret (inr doc)) w
                                 : outcome (point + json) * world fs))
             = commands_rows w).
  { intros h Hp. unfold bind, ret. destruct (h w) as [[doc|err] w'];
      simpl in *; now injection Hp. }
  destruct pt as [clk req|clk data existing|clk p|p|rows cmd_list
                 |clk p t payload|i result tok row|i result|i result].
  - destruct req as [data|p tok|p t payload key|i result tok| |f b key
                    |v f key| ]; cbn [advance].
    + now left.
    + left. unfold bind, fetch_one_computers, ret, raise.
      destruct (find _ (computers_rows w)) as [r|]; [|reflexivity].
      destruct (header_ne _ _); reflexivity.
    + left. unfold bind, fetch_one_computers, ret, raise.
      destruct (header_ne _ _); [reflexivity|].
      destruct (find _ (computers_rows w)); reflexivity.
    + left. unfold bind, fetch_one_commands, ret, raise.
      destruct (find _ (commands_rows w)); reflexivity.
    + left. apply Hkeep, version_persistent.
    + left. apply Hkeep, upload_binary_persistent.
    + left. apply Hkeep, set_version_persistent.
    + now left.
  - left. cbn [advance]. unfold bind, ret, execute_update_computers,
      execute_insert_computers.
    destruct existing; [reflexivity|].
    destruct (existsb _ _); reflexivity.
  - now left.
  - now left.
  - destruct rows as [|r rows]; [now left|]. right. left. cbn. eauto.
  - right. right. cbn. eexists. split; [|reflexivity]. reflexivity.
  - left. cbn [advance]. unfold bind, fetch_one_computers, ret, raise.
    destruct (find _ (computers_rows w)) as [pc|]; [|reflexivity].
    destruct (header_ne _ _); reflexivity.
  - right. left. cbn. eauto.
  - now left.
Qed.

Lemma schedule_shared (e : os_env) (ev : event) (s : server) :
  shared (schedule e ev s) = shared s \/
  exists pt, shared (schedule e ev s) = snd (advance e pt (shared s)).
Proof.
  destruct ev as [clk req|k]; [now left|]. unfold schedule.
  destruct (nth_error (pool s) k) as [pt|]; [|now left].
  right. exists pt.
  destruct (advance e pt (shared s)) as [[[pt'|doc]|err] w']; reflexivity.
Qed.

Lemma Forall2_compose {A} (R S T : A -> A -> Prop) (l1 l2 l3 : list A) :
  (forall a b c, R a b -> S b c -> T a c) ->
  Forall2 R l1 l2 -> Forall2 S l2 l3 -> Forall2 T l1 l3.
Proof.
  intros H H12. revert l3. induction H12 as [|a b l1 l2 Hab _ IH];
    intros l3 H23; inversion H23; subst; constructor; eauto.
Qed.

Lemma commands_settle_refl (rows : list commands.row) :
  commands_settle rows rows.
Proof.
  exists rows, []. rewrite app_nil_r. repeat split; auto.
  induction rows; constructor; auto using same_command_refl.
Qed.

Lemma commands_settle_trans (a b c : list commands.row) :
  commands_settle a b -> commands_settle b c -> commands_settle a c.
Proof.
  intros (k1 & a1 & -> & H1 & V1) (k2 & a2 & -> & H2 & V2).
  apply Forall2_app_inv_l in H2. destruct H2 as (k21 & k22 & Hk & Ha & ->).
  exists k21, (k22 ++ a2). rewrite app_assoc. split; [reflexivity|]. split.
  - eapply Forall2_compose; [|exact H1|exact Hk].
    intros x y z [(X1 & X2 & X3 & X4 & X5) Hxy] [(Y1 & Y2 & Y3 & Y4 & Y5) Hyz].
    split; [unfold same_command; repeat split; congruence|].
    destruct Hyz as [Hyz|Hyz]; [rewrite Hyz; exact Hxy|auto].
  - apply Forall_app. split; [|exact V2].
    clear - Ha V1. induction Ha as [|x y l l' [_ Hxy] _ IH]; [constructor|].
    inversion V1 as [|? ? Vx Vl]; subst. constructor; [|now apply IH].
    unfold valid_status in *.
    destruct Hxy as [->|[->| ->]]; auto.
Qed.

Lemma advance_settles (e : os_env) (pt : point) (w : world fs) :
  commands_settle (commands_rows w) (commands_rows (snd (advance e pt w))).
Proof.
  destruct (advance_commands_shape e pt w)
    as [->|[(cond & st & Hst & ->)|(c & Hc & ->)]].
  - apply commands_settle_refl.
  - exists (update_where cond (status_values st) (commands_rows w)), [].
    rewrite app_nil_r. repeat split; auto.
    eapply Forall2_impl; [|apply update_where_status_Forall2].
    intros x y [Hs Hy]. split; [exact Hs|]. rewrite Hy.
    destruct (cond x); [|now left]. destruct Hst as [-> | ->]; auto.
  - exists (commands_rows w), [c]. repeat split; auto.
    + induction (commands_rows w); constructor;
        auto using same_command_refl.
    + constructor; [|constructor]. left. exact Hc.
Qed.

(** X18.  Whatever requests arrive and however their resumptions
    interleave, from any state of the server: a command that is in the
    table stays in its place with its id, owner, type and payload, and
    its status is the one it had, or sent, or done.  So no interleaving
    returns a command to pending, deletes one, or stores a status other
    than pending, sent and done for a new one. *)
Theorem interleaving_only_settles_commands
  (e : os_env) (evs : list event) (s : server) :
  commands_settle (commands_rows (shared s))
    (commands_rows (shared (schedule_all e evs s))).
Proof.
  revert s. induction evs as [|ev evs IH]; intro s.
  - apply commands_settle_refl.
  - cbn [schedule_all]. eapply commands_settle_trans; [|apply IH].
    destruct (schedule_shared e ev s) as [->|(pt & ->)].
    + apply commands_settle_refl.
    + apply advance_settles.
Qed.

(** X19.  The double delivery.  In any state with [A] on record, let a
    second poll of [A] arrive and select before the first has marked
    anything: both polls succeed and both responses list every pending
    command of [A]. *)
Theorem interleaved_polls_deliver_twice
  (e : os_env) (clk1 clk2 : clock) (A : string) (w : world fs)
  (row : computers.row) :
  agent_of w A = Some row ->
  let pending := pending_of A (commands_rows w) in
  let s :=
    schedule_all e
      (two_polls clk1 clk2 A (Some (computers.token row))
         (List.length pending))
      (at_rest w) in
  pool s = [] /\
  responses s
  = [Return (JDict [("commands",
                     JList (map (fun c => entry (commands.id c)
                                            (commands.cmd_type c)
                                            (commands.payload c))
                              pending))]);
     Return (JDict [("commands",
                     JList (map (fun c => entry (commands.id c)
                                            (commands.cmd_type c)
                                            (commands.payload c))
                              pending))])].
Proof.
  intros Hrow pending s. subst s. unfold two_polls.
  rewrite !schedule_all_app.
  cbn [schedule_all schedule at_rest shared pool responses app].
  rewrite (schedule_select0 _ _ _ _ _ _ _ Hrow).
  match goal with
  | |- context [{| shared := ?w1; pool := _ :: Start _ _ :: _;
                   responses := _ |}] =>
      assert (Hrow1 : agent_of w1 A = Some (seen_values (utcnow clk1) row))
  end.
  { unfold agent_of. cbn [computers_rows].
    rewrite update_where_find_pc by reflexivity.
    unfold agent_of in Hrow. rewrite Hrow. simpl.
    destruct (find_pc_some _ _ _ Hrow) as [_ ->].
    now rewrite String.eqb_refl. }
  pose proof (fun p0 post rs =>
                schedule_select1 e clk2 A p0 post _ _ rs Hrow1) as Hsel.
  change (computers.token (seen_values (utcnow clk1) row))
    with (computers.token row) in Hsel.
  rewrite Hsel. cbn [commands_rows]. fold pending.
  rewrite schedule_marks0, schedule_marks0.
  cbn [pool responses app]. split; reflexivity.
Qed.

(** X20.  A report that arrives while a poll is between its selection and
    its marking is undone.  With command ids distinct, [A] on record and
    [c] a pending command of [A]: after the report has run to its end the
    command is stored as done and the report is answered [{"ok": true}];
    when the poll then finishes, the command is stored as sent, and the
    poll's response lists it. *)
Theorem report_during_poll_is_marked_sent
  (e : os_env) (clk : clock) (A : string) (w : world fs)
  (row : computers.row) (c : commands.row) (result : dict) :
  agent_of w A = Some row ->
  NoDup (map commands.id (commands_rows w)) ->
  In c (commands_rows w) ->
  commands.pc_id c = A ->
  commands.status c = "pending" ->
  let tok := Some (computers.token row) in
  let pending := pending_of A (commands_rows w) in
  let before_marks :=
    schedule_all e
      ([Arrive clk (Poll A tok)] ++ repeat (Resume 0) 3
       ++ [Arrive clk (ReportResult (commands.id c) result tok)]
       ++ repeat (Resume 1) 4)
      (at_rest w) in
  let s :=
    schedule_all e
      (report_during_poll clk A tok (commands.id c) result
         (List.length pending))
      (at_rest w) in
  (responses before_marks = [Return (JDict [("ok", JBool true)])] /\
   exists d, command_of (shared before_marks) (commands.id c) = Some d /\
             commands.status d = "done") /\
  pool s = [] /\
  responses s
  = [Return (JDict [("ok", JBool true)]);
     Return (JDict [("commands",
                     JList (map (fun c => entry (commands.id c)
                                            (commands.cmd_type c)
                                            (commands.payload c))
                              pending))])] /\
  In (entry (commands.id c) (commands.cmd_type c) (commands.payload c))
    (map (fun c => entry (commands.id c) (commands.cmd_type c)
                     (commands.payload c)) pending) /\
  exists c', command_of (shared s) (commands.id c) = Some c' /\
             commands.status c' = "sent" /\
             same_command c c'.
Proof.
  intros Hrow Hnd Hin HA Hpend tok pending before_marks s.
  subst tok.
  assert (Hh : header_ne (Some (computers.token row)) (computers.token row)
               = false) by now apply header_ne_false.
  assert (HrowA : computers.pc_id row = A)
    by exact (proj2 (find_pc_some _ _ _ Hrow)).
  assert (Hmid : before_marks
                 = {| shared :=
                        {| computers_rows :=
                             update_where (fun r => computers.pc_id r =? A)
                               (seen_values (utcnow clk)) (computers_rows w);
                           commands_rows :=
                             update_where
                               (fun x => (commands.id x =? commands.id c)%Z)
                               (status_values "done") (commands_rows w);
                           stdout :=
                             stdout w
                             ++ [Result_for_command (commands.id c) result];
                           files := files w |};
                      pool := [PollMark pending []];
                      responses := [Return (JDict [("ok", JBool true)])] |}).
  { subst before_marks. rewrite !schedule_all_app.
    cbn [schedule_all]. unfold at_rest. rewrite schedule_arrive. cbn [app].
    rewrite (schedule_select0 _ _ _ _ _ _ _ Hrow).
    rewrite schedule_arrive. cbn [app repeat schedule_all].
    rewrite schedule_resume1. cbn [advance].
    unfold bind, fetch_one_commands. cbn [commands_rows].
    rewrite (find_id_unique _ _ Hnd Hin). unfold ret.
    rewrite schedule_resume1. cbn [advance].
    unfold bind, fetch_one_computers. cbn [computers_rows].
    rewrite update_where_find_pc by reflexivity. rewrite HA.
    unfold agent_of in Hrow. rewrite Hrow. cbn [option_map].
    rewrite HrowA, String.eqb_refl. cbv beta iota.
    change (computers.token (seen_values (utcnow clk) row))
      with (computers.token row).
    rewrite Hh. unfold ret. rewrite schedule_resume1. cbn [advance].
    unfold bind, execute_update_commands, ret.
    rewrite schedule_resume1. cbn [advance].
    unfold bind, print, ret. reflexivity. }
  assert (Hs : s = schedule_all e (repeat (Resume 0) (S (List.length pending)))
                     before_marks).
  { subst s before_marks. unfold report_during_poll.
    now rewrite !schedule_all_app. }
  assert (Hdone : In (status_values "done" c)
                    (update_where (fun x => (commands.id x =? commands.id c)%Z)
                       (status_values "done") (commands_rows w))).
  { unfold update_where. apply in_map_iff. exists c.
    now rewrite Z.eqb_refl. }
  split.
  { rewrite Hmid. cbn [responses shared]. split; [reflexivity|].
    exists (status_values "done" c). split; [|reflexivity].
    unfold command_of. cbn [commands_rows].
    apply find_id_update_same. now apply find_id_unique. }
  rewrite Hs, Hmid, schedule_marks0. cbn [pool responses shared app].
  split; [reflexivity|]. split; [reflexivity|]. split.
  { apply in_map_iff. exists c. split; [reflexivity|].
    unfold pending, pending_of. apply filter_In. split; [exact Hin|].
    unfold is_pending_of. now rewrite HA, Hpend, !String.eqb_refl. }
  exists (status_values "sent" (status_values "done" c)).
  split; [|split; [reflexivity|unfold same_command; simpl; tauto]].
  rewrite poll_loop_run. unfold command_of. cbn [snd commands_rows].
  change (commands.id c) with (commands.id (status_values "done" c)) at 1.
  rewrite find_id_updated;
    [|now rewrite update_where_map by reflexivity|exact Hdone].
  assert (Hd : delivered pending (status_values "done" c) = true)
    by exact (pending_delivered A (commands_rows w) c Hin HA Hpend).
  now rewrite Hd.
Qed.

End Interleaved.

(** ** The further properties at the scenario *)

Lemma w_two_agents_reachable : reachable env0 w_two_agents.
Proof. unfold w_two_agents. apply reachable_step, w_queued_reachable. Qed.

Lemma admin_key_is_required_at_lab01 :
  Some "guess" <> Some (ADMIN_KEY env0) /\
  create_command env0 clk0 "lab01" "reboot" None (Some "guess") w_registered
    = (Raise (HTTPException 403 "bad admin key"), w_registered).
Proof.
  split; [discriminate|].
  apply (admin_key_is_required env0 clk0 (Some "guess") w_registered).
  discriminate.
Defined.

Lemma unknown_targets_are_not_found_at_lab01 :
  ~ In "lab09" (map computers.pc_id (computers_rows w_queued)) /\
  sqlite_integer 7 /\
  ~ In 7 (map commands.id (commands_rows w_queued)) /\
  poll clk0 "lab09" (Some "t1") w_queued
    = (Raise (HTTPException 404 "pc not found"), w_queued) /\
  report_result 7 [] (Some "t1") w_queued
    = (Raise (HTTPException 404 "command not found"), w_queued).
Proof.
  assert (Hpc : ~ In "lab09" (map computers.pc_id (computers_rows w_queued))).
  { simpl. intros [H|[]]. discriminate H. }
  assert (Hint : sqlite_integer 7) by (unfold sqlite_integer; lia).
  assert (Hid : ~ In 7 (map commands.id (commands_rows w_queued))).
  { simpl. intros [H|[]]. discriminate H. }
  split; [exact Hpc|]. split; [exact Hint|]. split; [exact Hid|].
  destruct (unknown_targets_are_not_found env0 clk0 w_queued)
    as (Hpoll & _ & Hreport).
  split; [apply Hpoll; exact Hpc|apply Hreport; [exact Hint|exact Hid]].
Defined.

Lemma register_sets_the_poll_token_at_lab01 :
  poll clk0 "lab01" (Some "t1")
    (snd (register clk0
            {| pc_id := "lab01"; room := "lab"; mac := None; ip := None;
               token := "t9" |} w_queued))
  = (Raise (HTTPException 403 "bad token"),
     snd (register clk0
            {| pc_id := "lab01"; room := "lab"; mac := None; ip := None;
               token := "t9" |} w_queued)).
Proof.
  apply (proj2 (register_sets_the_poll_token clk0 clk0
                  {| pc_id := "lab01"; room := "lab"; mac := None; ip := None;
                     token := "t9" |} (Some "t1") w_queued)).
  discriminate.
Defined.

Lemma version_only_reads_at_start :
  exists_ (files w_start) (joinpath (DOWNLOAD_FOLDER env0) "version.json")
    = false /\
  fst (version env0 w_start) = Return (JDict (descriptor "0.0.0" "")).
Proof.
  split; [reflexivity|].
  apply (proj2 (version_only_reads env0 w_start)). reflexivity.
Defined.

Lemma set_version_replaces_the_descriptor_at_agent_exe :
  exists_ (files w_published) (joinpath (DOWNLOAD_FOLDER env0) "agent.exe")
    = true /\
  exists w',
    set_version env0 "1.3.0" "agent.exe" (Some (ADMIN_KEY env0)) w_published
      = (Return (JDict [("ok", JBool true);
                        ("version",
                         JDict (descriptor "1.3.0"
                                  (get_base_url env0 ++ "/downloads/"
                                   ++ "agent.exe")))]),
         w') /\
    version env0 w'
      = (Return (JDict (descriptor "1.3.0"
                          (get_base_url env0 ++ "/downloads/" ++ "agent.exe"))),
         w') /\
    persistent w' = persistent w_published /\
    stdout w' = stdout w_published.
Proof.
  split; [reflexivity|].
  apply (set_version_replaces_the_descriptor env0 "1.3.0" "agent.exe"
           w_published).
  reflexivity.
Defined.

Lemma requests_keep_to_their_side_at_poll :
  files (step env0 clk0 (Poll "lab01" (Some "t1")) w_queued) = files w_queued
  /\ stdout (step env0 clk0 (Poll "lab01" (Some "t1")) w_queued)
     = stdout w_queued.
Proof.
  destruct (requests_keep_to_their_side env0 clk0 (Poll "lab01" (Some "t1"))
              w_queued) as (Hfiles & _ & Hout).
  split; [apply Hfiles; reflexivity|apply Hout; intros []].
Defined.

Lemma poll_leaves_other_agents_at_lab02 :
  reachable env0 w_two_agents /\
  "lab01" <> "lab02" /\
  agent_of (snd (poll clk0 "lab02" (Some "t2") w_two_agents)) "lab01"
    = agent_of w_two_agents "lab01" /\
  filter (fun c => commands.pc_id c =? "lab01")
    (commands_rows (snd (poll clk0 "lab02" (Some "t2") w_two_agents)))
  = filter (fun c => commands.pc_id c =? "lab01")
      (commands_rows w_two_agents).
Proof.
  split; [exact w_two_agents_reachable|]. split; [discriminate|].
  apply (poll_leaves_other_agents env0 clk0 "lab02" "lab01" (Some "t2")
           w_two_agents); [exact w_two_agents_reachable|discriminate].
Defined.

Lemma settled_command_is_not_delivered_again_at_lab01 :
  In 1 (map commands.id (commands_rows w_polled)) /\
  poll clk0 "lab01" (Some "t1") (serve env0 later_requests w_polled)
    = (Return (JDict [("commands", JList [entry 2 "lock" []])]),
       snd (poll clk0 "lab01" (Some "t1")
              (serve env0 later_requests w_polled))) /\
  exists cmds,
    JDict [("commands", JList [entry 2 "lock" []])]
      = JDict [("commands", JList cmds)] /\
    forall T P, ~ In (entry 1 T P) cmds.
Proof.
  split; [now left|]. split; [reflexivity|].
  apply (settled_command_is_not_delivered_again env0 later_requests clk0
           "lab01" (Some "t1") 1 w_polled
           (snd (poll clk0 "lab01" (Some "t1")
                   (serve env0 later_requests w_polled)))
           (JDict [("commands", JList [entry 2 "lock" []])])).
  - now left.
  - intros c Hc _.
    change (commands_rows w_polled) with [reboot_row "sent"] in Hc.
    destruct Hc as [<-|[]]. discriminate.
  - reflexivity.
Defined.

Lemma ids_count_up_at_two_agents :
  reachable env0 w_two_agents /\
  map commands.id (commands_rows w_two_agents)
    = first_ids (List.length (commands_rows w_two_agents)) /\
  map computers.id (computers_rows w_two_agents)
    = first_ids (List.length (computers_rows w_two_agents)) /\
  next_rowid (map commands.id (commands_rows w_two_agents))
    = Z.of_nat (S (List.length (commands_rows w_two_agents))).
Proof.
  split; [exact w_two_agents_reachable|].
  apply (ids_count_up env0 w_two_agents). exact w_two_agents_reachable.
Defined.

Lemma agents_stay_online_at_two_agents :
  reachable env0 w_two_agents /\
  Forall (fun c => computers.status c = "online" /\
                   computers.blocked c = false /\
                   computers.last_seen c <> None)
    (computers_rows w_two_agents).
Proof.
  split; [exact w_two_agents_reachable|].
  apply (agents_stay_online env0 w_two_agents). exact w_two_agents_reachable.
Defined.


Lemma one_record_per_agent_at_two_agents :
  reachable env0 w_two_agents /\
  NoDup (map computers.pc_id (computers_rows w_two_agents)) /\
  NoDup (map commands.id (commands_rows w_two_agents)) /\
  forall p, (count_pc p (computers_rows w_two_agents) <= 1)%nat.
Proof.
  split; [exact w_two_agents_reachable|].
  apply (one_record_per_agent env0 w_two_agents).
  exact w_two_agents_reachable.
Defined.

Lemma interleaved_polls_deliver_twice_at_lab01 :
  agent_of w_queued "lab01" = Some lab01_row /\
  pool (schedule_all env0 (two_polls clk0 clk0 "lab01" (Some "t1") 1)
          (at_rest w_queued)) = [] /\
  responses (schedule_all env0 (two_polls clk0 clk0 "lab01" (Some "t1") 1)
               (at_rest w_queued))
  = [Return (JDict [("commands", JList [entry 1 "reboot" []])]);
     Return (JDict [("commands", JList [entry 1 "reboot" []])])].
Proof.
  split; [reflexivity|].
  exact (interleaved_polls_deliver_twice env0 clk0 clk0 "lab01" w_queued
           lab01_row eq_refl).
Defined.

Lemma report_during_poll_is_marked_sent_at_lab01 :
  agent_of w_queued "lab01" = Some lab01_row /\
  NoDup (map commands.id (commands_rows w_queued)) /\
  In (reboot_row "pending") (commands_rows w_queued) /\
  responses
    (schedule_all env0
       (report_during_poll clk0 "lab01" (Some "t1") 1 [] 1)
       (at_rest w_queued))
  = [Return (JDict [("ok", JBool true)]);
     Return (JDict [("commands", JList [entry 1 "reboot" []])])] /\
  exists c',
    command_of
      (shared
         (schedule_all env0
            (report_during_poll clk0 "lab01" (Some "t1") 1 [] 1)
            (at_rest w_queued))) 1 = Some c' /\
    commands.status c' = "sent" /\
    same_command (reboot_row "pending") c'.
Proof.
  assert (Hnd : NoDup (map commands.id (commands_rows w_queued)))
    by (repeat constructor; simpl; tauto).
  assert (Hin : In (reboot_row "pending") (commands_rows w_queued))
    by now left.
  split; [reflexivity|]. split; [exact Hnd|]. split; [exact Hin|].
  destruct (report_during_poll_is_marked_sent env0 clk0 "lab01" w_queued
              lab01_row (reboot_row "pending") [] eq_refl Hnd Hin eq_refl
              eq_refl) as (_ & _ & Hresp & _ & Hsent).
  split; [exact Hresp|exact Hsent].
Defined.
